(** * License Tracker: allocation engine, risk scorer and aggregator

    A shallow embedding of the service layer of the License Tracker backend
    ([app/backend/models.py] and [app/backend/services/*.py]) and of the
    routes of [app/backend/server.py] for assignments and licenses,
    together with the properties its specification states about it.

    Conventions of the embedding.
    - A table of [models.py] is a finite map from its primary key to the
      remaining columns of the row; [Query.all] lists the rows of the map.
    - A [date] is its day number (an integer), so that [(a - b).days] is
      [a - b] and [d + timedelta(days=n)] is [d + n].
    - [date.today()], [datetime.utcnow()] and [uuid.uuid4()] are read from
      the environment: they are arguments of the operations that use them.
    - Python's float arithmetic on the usage ratios is read over the
      rationals; [round(x, 2)] is rounding to the nearest hundredth, ties
      to even.
    - A raised exception is a value of [Exception]; an operation is a
      function from the store to an outcome and the store it leaves.
    - A [str] that is matched against a pattern is the list of its code
      points. *)

From Stdlib Require Import ZArith QArith Qround Qabs Lia Lqa.
From stdpp Require Import gmap strings list fin_maps pretty sorting.

Open Scope Z_scope.

(** ** models.py *)

Module models.

Inductive DeviceStatus : Type :=
| ACTIVE
| MAINTENANCE
| OBSOLETE
| DECOMMISSIONED.

Inductive LicenseType : Type :=
| PER_USER
| PER_DEVICE
| ENTERPRISE.

(** Table [vendors], keyed by [vendor_id]. *)
Record Vendor : Type := {
  vendor_name : string;
  support_email : option string
}.

(** Table [devices], keyed by [device_id]. *)
Record Device : Type := {
  type : string;
  ip_address : string;
  location : string;
  model : option string;
  status : DeviceStatus
}.

(** Table [licenses], keyed by [license_key]. *)
Record License : Type := {
  software_name : string;
  vendor_id : string;
  valid_from : Z;
  valid_to : Z;
  license_type : LicenseType;
  max_usage : Z;
  notes : option string
}.

(** Table [assignments], keyed by [assignment_id]. *)
Record Assignment : Type := {
  license_key : string;
  device_id : string;
  assigned_by : string;
  assigned_at : Z
}.

#[global] Instance DeviceStatus_eq_dec : EqDecision DeviceStatus.
Proof. solve_decision. Defined.

#[global] Instance LicenseType_eq_dec : EqDecision LicenseType.
Proof. solve_decision. Defined.



Inductive UserRole : Type :=
| ADMIN
| ENGINEER
| AUDITOR.

#[global] Instance UserRole_eq_dec : EqDecision UserRole.
Proof. solve_decision. Defined.

(** [role.value]. *)
Definition UserRole_value (role : UserRole) : string :=
  match role with
  | ADMIN => "ADMIN"
  | ENGINEER => "ENGINEER"
  | AUDITOR => "AUDITOR"
  end.

(** Table [users], keyed by [user_id]; the column [role] has a default
    and may hold no value. *)
Record User : Type := {
  email : string;
  name : string;
  password_hash : string;
  role : option UserRole
}.

(** Table [audit_logs], keyed by [log_id]. *)
Record AuditLog : Type := {
  user_id : string;
  entity_type : string;
  entity_id : string;
  action : string;
  timestamp : Z;
  details : option string
}.

End models.

(** ** The database session *)

Record Store : Type := {
  vendors : gmap string models.Vendor;
  devices : gmap string models.Device;
  licenses : gmap string models.License;
  assignments : gmap string models.Assignment
}.

Inductive Exception : Type :=
| HTTPException (status_code : Z) (detail : string)
| IntegrityError
| AttributeError.

Inductive outcome (A : Type) : Type :=
| Return (a : A)
| Raise (e : Exception).

Arguments Return {A} a.
Arguments Raise {A} e.

(** A computation on the session: the outcome and the store it leaves. *)
Definition Db (A : Type) : Type := Store → outcome A * Store.

Definition ret {A : Type} (a : A) : Db A := λ s, (Return a, s).

Definition raise {A : Type} (e : Exception) : Db A := λ s, (Raise e, s).

Definition bind {A B : Type} (m : Db A) (k : A → Db B) : Db B :=
  λ s, match m s with
       | (Return a, s') => k a s'
       | (Raise e, s') => (Raise e, s')
       end.

Declare Scope db_scope.
Delimit Scope db_scope with db.
Bind Scope db_scope with Db.

Notation "x <- m ;; k" := (bind m (λ x, k))
  (at level 100, m at next level, right associativity) : db_scope.
Notation "m ;; k" := (bind m (λ _, k))
  (at level 100, right associativity) : db_scope.

(** [db.query(...)]: a read of the store. *)
Definition query {A : Type} (f : Store → A) : Db A := λ s, (Return (f s), s).

(** [Query.first()]: some row of the selection, [None] when it is empty. *)
Definition first {V : Type} (rows : gmap string V) : option (string * V) :=
  head (map_to_list rows).

(** [Query.count()]. *)
Definition count {V : Type} (rows : gmap string V) : Z := Z.of_nat (size rows).

(** [Query.all()]. *)
Definition all {V : Type} (rows : gmap string V) : list (string * V) :=
  map_to_list rows.

(** [db.add(row); db.commit()] on [assignments]: the primary key must be
    new, else the commit raises and nothing is stored. *)
Definition add_assignment (assignment_id : string) (row : models.Assignment)
  : Db unit :=
  λ s, match assignments s !! assignment_id with
       | Some _ => (Raise IntegrityError, s)
       | None =>
           (Return tt,
            {| vendors := vendors s;
               devices := devices s;
               licenses := licenses s;
               assignments := <[assignment_id := row]> (assignments s) |})
       end.

(** [db.delete(row); db.commit()] on [assignments]. *)
Definition delete_assignment_row (assignment_id : string) : Db unit :=
  λ s, (Return tt,
        {| vendors := vendors s;
           devices := devices s;
           licenses := licenses s;
           assignments := delete assignment_id (assignments s) |}).

(** [db.add(row); db.commit()] on [licenses]. *)
Definition add_license (license_key : string) (row : models.License)
  : Db unit :=
  λ s, match licenses s !! license_key with
       | Some _ => (Raise IntegrityError, s)
       | None =>
           (Return tt,
            {| vendors := vendors s;
               devices := devices s;
               licenses := <[license_key := row]> (licenses s);
               assignments := assignments s |})
       end.

(** [db.delete(license); db.commit()]: the relationship
    [License.assignments] cascades ([all, delete-orphan]), so the rows of
    [assignments] that reference the license are deleted with it. *)
Definition delete_license_row (license_key : string) : Db unit :=
  λ s, (Return tt,
        {| vendors := vendors s;
           devices := devices s;
           licenses := delete license_key (licenses s);
           assignments :=
             filter (λ r, models.license_key r.2 ≠ license_key)
                    (assignments s) |}).

(** [setattr(license, ...); db.commit()]: the row under the key is
    replaced. *)
Definition update_license_row (license_key : string) (row : models.License)
  : Db unit :=
  λ s, (Return tt,
        {| vendors := vendors s;
           devices := devices s;
           licenses := <[license_key := row]> (licenses s);
           assignments := assignments s |}).

(** The selections of the [assignments] table the services use. *)
Definition by_license (license_key : string)
    (rows : gmap string models.Assignment) : gmap string models.Assignment :=
  filter (λ r, models.license_key r.2 = license_key) rows.

Definition by_device (device_id : string)
    (rows : gmap string models.Assignment) : gmap string models.Assignment :=
  filter (λ r, models.device_id r.2 = device_id) rows.

Definition by_pair (license_key device_id : string)
    (rows : gmap string models.Assignment) : gmap string models.Assignment :=
  filter (λ r, models.license_key r.2 = license_key
               ∧ models.device_id r.2 = device_id) rows.


(** [for x in xs: body], the loop's local variables threaded through. *)
Fixpoint for_each {A L : Type} (xs : list A) (body : A → L → Db L)
    (locals : L) : Db L :=
  match xs with
  | [] => ret locals
  | x :: xs' => (locals' <- body x locals ;; for_each xs' body locals')%db
  end.

(** [len(xs)]. *)
Definition len {A : Type} (xs : list A) : Z := Z.of_nat (length xs).

(** [str(n)] of an f-string. *)
Definition str (n : Z) : string := pretty n.

(** ** Numbers *)

(** The nearest integer, ties to the even one. *)
Definition round_half_even (x : Q) : Z :=
  let f := Qfloor x in
  match (x - inject_Z f ?= 1 # 2)%Q with
  | Lt => f
  | Gt => f + 1
  | Eq => if Z.even f then f else f + 1
  end.

(** [round(x, 2)]. *)
Definition round2 (x : Q) : Q := round_half_even (x * 100) # 100.

(** [n / d * 100] on integers, with Python's true division. *)
Definition percent_of (n d : Z) : Q := (inject_Z n / inject_Z d * 100)%Q.

(** [x >= y] and [x < y] on floats. *)
Definition Qge_bool (x y : Q) : bool := Qle_bool y x.
Definition Qlt_bool (x y : Q) : bool := negb (Qle_bool y x).

(** [sorted(xs, key=key)]: a stable sort; [leb] is the order of the keys. *)
Fixpoint insert_sorted {A K : Type} (leb : K → K → bool) (key : A → K)
    (x : A) (xs : list A) : list A :=
  match xs with
  | [] => [x]
  | y :: xs' =>
      if leb (key x) (key y) then x :: y :: xs'
      else y :: insert_sorted leb key x xs'
  end.

Definition sorted {A K : Type} (leb : K → K → bool) (key : A → K)
    (xs : list A) : list A :=
  foldr (insert_sorted leb key) [] xs.

(** ** services/assignment_service.py *)

Module AssignmentService.

Record DeleteResult : Type := {
  dr_message : string;
  dr_license_key : string;
  dr_device_id : string
}.

Record Utilization : Type := {
  u_license_key : string;
  u_software_name : string;
  u_max_usage : Z;
  u_current_usage : Z;
  u_available : Z;
  u_utilization_percent : Q;
  u_status : string
}.

Definition create_assignment (uuid4 : string) (utcnow : Z)
    (license_key device_id assigned_by : string)
  : Db (string * models.Assignment) :=
  (license <- query (λ s, licenses s !! license_key) ;;
   match license with
   | None =>
       raise (HTTPException 404 ("License " +:+ license_key +:+ " not found"))
   | Some license =>
       device <- query (λ s, devices s !! device_id) ;;
       match device with
       | None =>
           raise (HTTPException 404
                    ("Device " +:+ device_id +:+ " not found"))
       | Some _ =>
           existing <- query (λ s,
             first (by_pair license_key device_id (assignments s))) ;;
           match existing with
           | Some _ =>
               raise (HTTPException 400
                        ("License " +:+ license_key
                         +:+ " already assigned to device " +:+ device_id))
           | None =>
               current_usage <- query (λ s,
                 count (by_license license_key (assignments s))) ;;
               if bool_decide (models.max_usage license ≤ current_usage)
               then
                 raise (HTTPException 400
                          ("License " +:+ license_key
                           +:+ " has reached maximum usage ("
                           +:+ str (models.max_usage license)
                           +:+ "). Currently assigned to "
                           +:+ str current_usage +:+ " devices."))
               else
                 let assignment :=
                   {| models.license_key := license_key;
                      models.device_id := device_id;
                      models.assigned_by := assigned_by;
                      models.assigned_at := utcnow |} in
                 add_assignment uuid4 assignment ;;
                 ret (uuid4, assignment)
           end
       end
   end)%db.

Definition get_assignment_by_id (assignment_id : string)
  : Db models.Assignment :=
  (assignment <- query (λ s, assignments s !! assignment_id) ;;
   match assignment with
   | None =>
       raise (HTTPException 404
                ("Assignment " +:+ assignment_id +:+ " not found"))
   | Some assignment => ret assignment
   end)%db.

Definition get_assignments_by_device (device_id : string)
  : Db (list (string * models.Assignment)) :=
  query (λ s, all (by_device device_id (assignments s))).

Definition get_assignments_by_license (license_key : string)
  : Db (list (string * models.Assignment)) :=
  query (λ s, all (by_license license_key (assignments s))).

Definition delete_assignment (assignment_id : string) : Db DeleteResult :=
  (assignment <- get_assignment_by_id assignment_id ;;
   delete_assignment_row assignment_id ;;
   ret {| dr_message :=
            "Assignment " +:+ assignment_id +:+ " deleted successfully";
          dr_license_key := models.license_key assignment;
          dr_device_id := models.device_id assignment |})%db.

Definition get_license_utilization (license_key : string)
  : Db Utilization :=
  (license <- query (λ s, licenses s !! license_key) ;;
   match license with
   | None =>
       raise (HTTPException 404 ("License " +:+ license_key +:+ " not found"))
   | Some license =>
       current_usage <- query (λ s,
         count (by_license license_key (assignments s))) ;;
       let max_usage := models.max_usage license in
       let available := max_usage - current_usage in
       let utilization_percent :=
         if bool_decide (0 < max_usage)
         then round2 (percent_of current_usage max_usage)
         else 0%Q in
       let status_label :=
         if Qge_bool utilization_percent 90 then "CRITICAL"
         else if Qge_bool utilization_percent 70 then "WARNING"
         else "OK" in
       ret {| u_license_key := license_key;
              u_software_name := models.software_name license;
              u_max_usage := max_usage;
              u_current_usage := current_usage;
              u_available := available;
              u_utilization_percent := utilization_percent;
              u_status := status_label |}
   end)%db.

Definition get_all_utilizations : Db (list Utilization) :=
  (licenses <- query (λ s, all (licenses s)) ;;
   for_each licenses (λ '(license_key, _) utilizations,
     utilization <- get_license_utilization license_key ;;
     ret (utilizations ++ [utilization])) [])%db.

End AssignmentService.

(** ** services/alert_service.py *)

Module AlertService.

Record ExpiringAlert : Type := {
  ea_license_key : string;
  ea_software_name : string;
  ea_vendor_id : string;
  ea_valid_to : Z;
  ea_days_until_expiry : Z;
  ea_assigned_devices : Z;
  ea_severity : string;
  ea_message : string
}.

Record ExpiringDetail : Type := {
  ed_name : string;
  ed_days_left : Z
}.

Record DeviceRisk : Type := {
  r_device_id : string;
  r_device_type : string;
  r_location : string;
  r_ip_address : string;
  r_expired_licenses : Z;
  r_expiring_soon : Z;
  r_expired_license_names : list string;
  r_expiring_license_details : list ExpiringDetail;
  r_severity : string;
  r_message : string
}.

(** The report without its [generated_at] time stamp. *)
Record ComplianceReport : Type := {
  cr_total_licenses : Z;
  cr_valid_licenses : Z;
  cr_expiring_within_30_days : Z;
  cr_expiring_within_60_days : Z;
  cr_expired_licenses : Z;
  cr_overused_licenses : Z;
  cr_compliance_rate : Q
}.

Definition _get_expiry_severity (days_until_expiry : Z) : string :=
  if bool_decide (days_until_expiry ≤ 7) then "CRITICAL"
  else if bool_decide (days_until_expiry ≤ 15) then "HIGH"
  else if bool_decide (days_until_expiry ≤ 30) then "MEDIUM"
  else "LOW".

Definition _get_device_risk_message (expired_count expiring_soon : Z)
  : string :=
  let parts := [] in
  let parts :=
    if bool_decide (0 < expired_count)
    then parts ++ [str expired_count +:+ " expired license"
                   +:+ (if bool_decide (expired_count ≠ 1) then "s" else "")]
    else parts in
  let parts :=
    if bool_decide (0 < expiring_soon)
    then parts ++ [str expiring_soon +:+ " expiring soon"]
    else parts in
  String.concat " â€¢ " parts.

Definition get_expiring_licenses (today : Z) (days : Z)
  : Db (list ExpiringAlert) :=
  (let threshold_date := today + days in
   licenses <- query (λ s,
     all (filter (λ r, models.valid_to r.2 ≤ threshold_date
                       ∧ today ≤ models.valid_to r.2) (licenses s))) ;;
   alerts <- for_each licenses (λ '(license_key, license) alerts,
     let days_until_expiry := models.valid_to license - today in
     assignment_count <- query (λ s,
       count (by_license license_key (assignments s))) ;;
     ret (alerts ++ [
       {| ea_license_key := license_key;
          ea_software_name := models.software_name license;
          ea_vendor_id := models.vendor_id license;
          ea_valid_to := models.valid_to license;
          ea_days_until_expiry := days_until_expiry;
          ea_assigned_devices := assignment_count;
          ea_severity := _get_expiry_severity days_until_expiry;
          ea_message :=
            models.software_name license +:+ " expires in "
            +:+ str days_until_expiry +:+ " day"
            +:+ (if bool_decide (days_until_expiry ≠ 1) then "s" else "")
       |} ])) [] ;;
   ret (sorted Z.leb ea_days_until_expiry alerts))%db.

(** The local variables of the loop over a device's assignments. *)
Record RiskCounts : Type := {
  rk_expired_count : Z;
  rk_expiring_soon_count : Z;
  rk_expired_licenses : list string;
  rk_expiring_licenses : list ExpiringDetail
}.

(** Tuples [(bool, int)] in Python's order, [False] before [True]. *)
Definition risk_key_leb (a b : bool * Z) : bool :=
  match a.1, b.1 with
  | false, true => true
  | true, false => false
  | _, _ => Z.leb a.2 b.2
  end.

Definition get_devices_at_risk (today : Z) (days_threshold : Z)
  : Db (list DeviceRisk) :=
  (let threshold_date := today + days_threshold in
   devices <- query (λ s,
     all (filter (λ r, models.status r.2 = models.ACTIVE) (devices s))) ;;
   at_risk <- for_each devices (λ '(device_id, device) at_risk,
     assignments <- query (λ s, all (by_device device_id (assignments s))) ;;
     counts <- for_each assignments (λ '(_, assignment) c,
       license <- query (λ s,
         licenses s !! models.license_key assignment) ;;
       match license with
       | None => raise AttributeError
       | Some license =>
           if bool_decide (models.valid_to license < today) then
             ret {| rk_expired_count := rk_expired_count c + 1;
                    rk_expiring_soon_count := rk_expiring_soon_count c;
                    rk_expired_licenses :=
                      rk_expired_licenses c ++ [models.software_name license];
                    rk_expiring_licenses := rk_expiring_licenses c |}
           else if bool_decide (models.valid_to license ≤ threshold_date)
           then
             ret {| rk_expired_count := rk_expired_count c;
                    rk_expiring_soon_count := rk_expiring_soon_count c + 1;
                    rk_expired_licenses := rk_expired_licenses c;
                    rk_expiring_licenses :=
                      rk_expiring_licenses c ++ [
                        {| ed_name := models.software_name license;
                           ed_days_left :=
                             models.valid_to license - today |} ] |}
           else ret c
       end)
       {| rk_expired_count := 0; rk_expiring_soon_count := 0;
          rk_expired_licenses := []; rk_expiring_licenses := [] |} ;;
     if bool_decide (0 < rk_expired_count counts)
        || bool_decide (0 < rk_expiring_soon_count counts)
     then
       ret (at_risk ++ [
         {| r_device_id := device_id;
            r_device_type := models.type device;
            r_location := models.location device;
            r_ip_address := models.ip_address device;
            r_expired_licenses := rk_expired_count counts;
            r_expiring_soon := rk_expiring_soon_count counts;
            r_expired_license_names := rk_expired_licenses counts;
            r_expiring_license_details := rk_expiring_licenses counts;
            r_severity :=
              if bool_decide (0 < rk_expired_count counts)
              then "CRITICAL" else "WARNING";
            r_message :=
              _get_device_risk_message (rk_expired_count counts)
                                       (rk_expiring_soon_count counts) |} ])
     else ret at_risk) [] ;;
   ret (sorted risk_key_leb
          (λ x, (bool_decide (r_severity x = "WARNING"),
                 - r_expired_licenses x))
          at_risk))%db.

(** The counters of the loop of the compliance report. *)
Record ComplianceCounts : Type := {
  valid_count : Z;
  expiring_30_days : Z;
  expiring_60_days : Z;
  expired_count : Z;
  overused_count : Z
}.

Definition get_license_compliance_report (today : Z)
  : Db ComplianceReport :=
  (all_licenses <- query (λ s, all (licenses s)) ;;
   c <- for_each all_licenses (λ '(license_key, license) c,
     let days_until_expiry := models.valid_to license - today in
     usage <- query (λ s, count (by_license license_key (assignments s))) ;;
     let c :=
       if bool_decide (days_until_expiry < 0) then
         {| valid_count := valid_count c;
            expiring_30_days := expiring_30_days c;
            expiring_60_days := expiring_60_days c;
            expired_count := expired_count c + 1;
            overused_count := overused_count c |}
       else if bool_decide (days_until_expiry ≤ 30) then
         {| valid_count := valid_count c;
            expiring_30_days := expiring_30_days c + 1;
            expiring_60_days := expiring_60_days c;
            expired_count := expired_count c;
            overused_count := overused_count c |}
       else if bool_decide (days_until_expiry ≤ 60) then
         {| valid_count := valid_count c;
            expiring_30_days := expiring_30_days c;
            expiring_60_days := expiring_60_days c + 1;
            expired_count := expired_count c;
            overused_count := overused_count c |}
       else
         {| valid_count := valid_count c + 1;
            expiring_30_days := expiring_30_days c;
            expiring_60_days := expiring_60_days c;
            expired_count := expired_count c;
            overused_count := overused_count c |} in
     if Qge_bool (inject_Z usage)
                 (inject_Z (models.max_usage license) * 0.9)
     then
       ret {| valid_count := valid_count c;
              expiring_30_days := expiring_30_days c;
              expiring_60_days := expiring_60_days c;
              expired_count := expired_count c;
              overused_count := overused_count c + 1 |}
     else ret c)
     {| valid_count := 0; expiring_30_days := 0; expiring_60_days := 0;
        expired_count := 0; overused_count := 0 |} ;;
   let total := len all_licenses in
   ret {| cr_total_licenses := total;
          cr_valid_licenses := valid_count c;
          cr_expiring_within_30_days := expiring_30_days c;
          cr_expiring_within_60_days := expiring_60_days c;
          cr_expired_licenses := expired_count c;
          cr_overused_licenses := overused_count c;
          cr_compliance_rate :=
            match all_licenses with
            | [] => 0%Q
            | _ :: _ => round2 (percent_of (valid_count c) total)
            end |})%db.

Record OverusedAlert : Type := {
  ou_license_key : string;
  ou_software_name : string;
  ou_vendor_id : string;
  ou_current_usage : Z;
  ou_max_usage : Z;
  ou_available : Z;
  ou_usage_percentage : Q;
  ou_severity : string;
  ou_message : string
}.

Definition _get_usage_severity (usage_percentage : Q) : string :=
  if Qge_bool usage_percentage 95 then "CRITICAL"
  else if Qge_bool usage_percentage 90 then "HIGH"
  else if Qge_bool usage_percentage 75 then "WARNING"
  else "NORMAL".

(** The format [.0f] of the message prints the nearest integer. *)
Definition get_overused_licenses (threshold_percent : Z)
  : Db (list OverusedAlert) :=
  (licenses <- query (λ s, all (licenses s)) ;;
   overused <- for_each licenses (λ '(license_key, license) overused,
     usage_count <- query (λ s,
       count (by_license license_key (assignments s))) ;;
     let usage_percentage :=
       if bool_decide (0 < models.max_usage license)
       then percent_of usage_count (models.max_usage license)
       else 0%Q in
     if Qge_bool usage_percentage (inject_Z threshold_percent) then
       ret (overused ++ [
         {| ou_license_key := license_key;
            ou_software_name := models.software_name license;
            ou_vendor_id := models.vendor_id license;
            ou_current_usage := usage_count;
            ou_max_usage := models.max_usage license;
            ou_available := models.max_usage license - usage_count;
            ou_usage_percentage := round2 usage_percentage;
            ou_severity := _get_usage_severity usage_percentage;
            ou_message :=
              models.software_name license +:+ " at "
              +:+ str (round_half_even usage_percentage)
              +:+ "% capacity" |} ])
     else ret overused) [] ;;
   ret (sorted (λ a b, Qle_bool b a) ou_usage_percentage overused))%db.



End AlertService.

(** ** services/report_service.py *)

Module ReportService.

Record LicenseData : Type := {
  ld_license_key : string;
  ld_software_name : string;
  ld_vendor_id : string;
  ld_valid_from : Z;
  ld_valid_to : Z;
  ld_days_until_expiry : Z;
  ld_max_usage : Z;
  ld_current_usage : Z;
  ld_usage_percentage : Q;
  ld_license_type : models.LicenseType
}.

Record Summary : Type := {
  valid : Z;
  expiring_30_days : Z;
  expiring_60_days : Z;
  expired : Z;
  overused : Z;
  underutilized : Z
}.

(** The report without its [report_date] time stamp. *)
Record ComplianceReport : Type := {
  total_licenses : Z;
  summary : Summary;
  valid_licenses : list LicenseData;
  expiring_30_days_licenses : list LicenseData;
  expiring_60_days_licenses : list LicenseData;
  expired_licenses : list LicenseData;
  overused_licenses : list LicenseData;
  underutilized_licenses : list LicenseData;
  compliance_rate : Q
}.

(** The lists the loop of the report appends to. *)
Record Buckets : Type := {
  b_valid : list LicenseData;
  b_expiring_30 : list LicenseData;
  b_expiring_60 : list LicenseData;
  b_expired : list LicenseData;
  b_overused : list LicenseData;
  b_underutilized : list LicenseData
}.

Definition generate_license_compliance_report (today : Z)
  : Db ComplianceReport :=
  (all_licenses <- query (λ s, all (licenses s)) ;;
   b <- for_each all_licenses (λ '(license_key, license) b,
     let days_until_expiry := models.valid_to license - today in
     usage_count <- query (λ s,
       count (by_license license_key (assignments s))) ;;
     let usage_percentage :=
       if bool_decide (0 < models.max_usage license)
       then percent_of usage_count (models.max_usage license)
       else 0%Q in
     let license_data :=
       {| ld_license_key := license_key;
          ld_software_name := models.software_name license;
          ld_vendor_id := models.vendor_id license;
          ld_valid_from := models.valid_from license;
          ld_valid_to := models.valid_to license;
          ld_days_until_expiry := days_until_expiry;
          ld_max_usage := models.max_usage license;
          ld_current_usage := usage_count;
          ld_usage_percentage := round2 usage_percentage;
          ld_license_type := models.license_type license |} in
     let b :=
       if bool_decide (days_until_expiry < 0) then
         {| b_valid := b_valid b;
            b_expiring_30 := b_expiring_30 b;
            b_expiring_60 := b_expiring_60 b;
            b_expired := b_expired b ++ [license_data];
            b_overused := b_overused b;
            b_underutilized := b_underutilized b |}
       else if bool_decide (days_until_expiry ≤ 30) then
         {| b_valid := b_valid b;
            b_expiring_30 := b_expiring_30 b ++ [license_data];
            b_expiring_60 := b_expiring_60 b;
            b_expired := b_expired b;
            b_overused := b_overused b;
            b_underutilized := b_underutilized b |}
       else if bool_decide (days_until_expiry ≤ 60) then
         {| b_valid := b_valid b;
            b_expiring_30 := b_expiring_30 b;
            b_expiring_60 := b_expiring_60 b ++ [license_data];
            b_expired := b_expired b;
            b_overused := b_overused b;
            b_underutilized := b_underutilized b |}
       else
         {| b_valid := b_valid b ++ [license_data];
            b_expiring_30 := b_expiring_30 b;
            b_expiring_60 := b_expiring_60 b;
            b_expired := b_expired b;
            b_overused := b_overused b;
            b_underutilized := b_underutilized b |} in
     if Qge_bool usage_percentage 90 then
       ret {| b_valid := b_valid b;
              b_expiring_30 := b_expiring_30 b;
              b_expiring_60 := b_expiring_60 b;
              b_expired := b_expired b;
              b_overused := b_overused b ++ [license_data];
              b_underutilized := b_underutilized b |}
     else if Qlt_bool usage_percentage 30 then
       ret {| b_valid := b_valid b;
              b_expiring_30 := b_expiring_30 b;
              b_expiring_60 := b_expiring_60 b;
              b_expired := b_expired b;
              b_overused := b_overused b;
              b_underutilized := b_underutilized b ++ [license_data] |}
     else ret b)
     {| b_valid := []; b_expiring_30 := []; b_expiring_60 := [];
        b_expired := []; b_overused := []; b_underutilized := [] |} ;;
   ret {| total_licenses := len all_licenses;
          summary :=
            {| valid := len (b_valid b);
               expiring_30_days := len (b_expiring_30 b);
               expiring_60_days := len (b_expiring_60 b);
               expired := len (b_expired b);
               overused := len (b_overused b);
               underutilized := len (b_underutilized b) |};
          valid_licenses := b_valid b;
          expiring_30_days_licenses := b_expiring_30 b;
          expiring_60_days_licenses := b_expiring_60 b;
          expired_licenses := b_expired b;
          overused_licenses := b_overused b;
          underutilized_licenses := b_underutilized b;
          compliance_rate :=
            match all_licenses with
            | [] => 0%Q
            | _ :: _ =>
                round2 (percent_of (len (b_valid b)) (len all_licenses))
            end |})%db.






(** The counters of the loop over the licenses of a vendor. *)
Record VendorCounts : Type := {
  vc_expired_count : Z;
  vc_expiring_30_days : Z;
  vc_total_capacity : Z;
  vc_total_usage : Z
}.


End ReportService.

(** ** server.py: the request body of [POST /licenses] *)

Module server.

(** [class LicenseCreate(BaseModel)]: every field is typed, none is
    constrained further. *)
Record LicenseCreate : Type := {
  license_key : string;
  software_name : string;
  vendor_id : string;
  valid_from : Z;
  valid_to : Z;
  license_type : models.LicenseType;
  max_usage : Z;
  notes : option string
}.

(** The row the constructor of [models.License] builds from the fields. *)
Definition to_row (license_data : LicenseCreate) : models.License :=
  {| models.software_name := software_name license_data;
     models.vendor_id := vendor_id license_data;
     models.valid_from := valid_from license_data;
     models.valid_to := valid_to license_data;
     models.license_type := license_type license_data;
     models.max_usage := max_usage license_data;
     models.notes := notes license_data |}.

(** *** [validate_ip_address]

    A [str] is the list of its code points. Which code points are decimal
    digits (what [\d] matches and [int] reads), their values and which
    are white space ([int] strips it) are tables of Python, not of the
    repository: they are the variables of the section. *)
Section validate_ip_address.

Variable is_decimal : Z → bool.
Variable decimal_value : Z → Z.
Variable is_space : Z → bool.

(** [\d{1,3}], greedy: the longest run of one to three digits at the
    head, with the rest. The characters that follow in the pattern are no
    digits, so giving a digit back never makes it match. *)
Definition digits_1_3 (text : list Z) : option (list Z * list Z) :=
  match text with
  | c1 :: rest1 =>
      if is_decimal c1 then
        match rest1 with
        | c2 :: rest2 =>
            if is_decimal c2 then
              match rest2 with
              | c3 :: rest3 =>
                  if is_decimal c3 then Some ([c1; c2; c3], rest3)
                  else Some ([c1; c2], rest2)
              | [] => Some ([c1; c2], rest2)
              end
            else Some ([c1], rest1)
        | [] => Some ([c1], rest1)
        end
      else None
  | [] => None
  end.

(** [\d{1,3}\.]: the rest after the group. *)
Definition digits_dot (text : list Z) : option (list Z) :=
  match digits_1_3 text with
  | Some (_, c :: rest) => if bool_decide (c = 46) then Some rest else None
  | _ => None
  end.

(** [re.match(r'^(\d{1,3}\.){3}\d{1,3}$', ip)]: [$] is the end of the
    text or the place before a line feed that ends it. *)
Definition re_match (ip : list Z) : bool :=
  match digits_dot ip with
  | Some rest1 =>
      match digits_dot rest1 with
      | Some rest2 =>
          match digits_dot rest2 with
          | Some rest3 =>
              match digits_1_3 rest3 with
              | Some (_, []) => true
              | Some (_, [c]) => bool_decide (c = 10)
              | _ => false
              end
          | None => false
          end
      | None => false
      end
  | None => false
  end.

(** [text.split(sep)] for a separator of one character. *)
Fixpoint split (sep : Z) (text : list Z) : list (list Z) :=
  match text with
  | [] => [[]]
  | c :: rest =>
      if bool_decide (c = sep) then [] :: split sep rest
      else match split sep rest with
           | piece :: pieces => (c :: piece) :: pieces
           | [] => [[c]]
           end
  end.

Fixpoint lstrip (text : list Z) : list Z :=
  match text with
  | c :: rest => if is_space c then lstrip rest else text
  | [] => []
  end.

Definition strip (text : list Z) : list Z :=
  reverse (lstrip (reverse (lstrip text))).

(** The digits of [int], single underscores between them allowed. *)
Fixpoint int_digits (value : Z) (text : list Z) : option Z :=
  match text with
  | [] => Some value
  | c :: rest =>
      if is_decimal c then int_digits (value * 10 + decimal_value c) rest
      else if bool_decide (c = 95) then
        match rest with
        | d :: rest' =>
            if is_decimal d
            then int_digits (value * 10 + decimal_value d) rest'
            else None
        | [] => None
        end
      else None
  end.

(** [int(text)]; [None] stands for [ValueError]. *)
Definition int (text : list Z) : option Z :=
  let text := strip text in
  let '(sign, body) :=
    match text with
    | c :: rest =>
        if bool_decide (c = 43) then (1, rest)
        else if bool_decide (c = 45) then (-1, rest)
        else (1, text)
    | [] => (1, text)
    end in
  match body with
  | c :: rest =>
      if is_decimal c
      then (λ n, sign * n) <$> int_digits (decimal_value c) rest
      else None
  | [] => None
  end.

(** The loop over the octets; [None] stands for the [ValueError] of
    [int]. *)
Fixpoint octets_in_range (octets : list (list Z)) : option bool :=
  match octets with
  | [] => Some true
  | octet :: octets' =>
      match int octet with
      | None => None
      | Some n =>
          if bool_decide (n < 0) || bool_decide (255 < n) then Some false
          else octets_in_range octets'
      end
  end.

Definition validate_ip_address (ip : list Z) : option bool :=
  if negb (re_match ip) then Some false
  else octets_in_range (split 46 ip).

End validate_ip_address.

End server.

(** [class LicenseUpdate(BaseModel)]: every field is optional. *)
Module LicenseUpdate.

Record t : Type := {
  software_name : option string;
  vendor_id : option string;
  valid_from : option Z;
  valid_to : option Z;
  license_type : option models.LicenseType;
  max_usage : option Z;
  notes : option string
}.

(** [for key, value in update_data.items(): if value is not None:
    setattr(license, key, value)]. *)
Definition apply (update_data : t) (license : models.License)
  : models.License :=
  {| models.software_name :=
       default (models.software_name license) (software_name update_data);
     models.vendor_id :=
       default (models.vendor_id license) (vendor_id update_data);
     models.valid_from :=
       default (models.valid_from license) (valid_from update_data);
     models.valid_to :=
       default (models.valid_to license) (valid_to update_data);
     models.license_type :=
       default (models.license_type license) (license_type update_data);
     models.max_usage :=
       default (models.max_usage license) (max_usage update_data);
     models.notes :=
       match notes update_data with
       | Some text => Some text
       | None => models.notes license
       end |}.

End LicenseUpdate.

(** ** services/license_service.py *)

Module LicenseService.

Definition create_license (license_data : server.LicenseCreate)
  : Db (string * models.License) :=
  (existing <- query (λ s,
     licenses s !! server.license_key license_data) ;;
   match existing with
   | Some _ =>
       raise (HTTPException 400
                ("License key " +:+ server.license_key license_data
                 +:+ " already exists"))
   | None =>
       vendor <- query (λ s, vendors s !! server.vendor_id license_data) ;;
       match vendor with
       | None =>
           raise (HTTPException 400
                    ("Vendor " +:+ server.vendor_id license_data
                     +:+ " not found"))
       | Some _ =>
           if bool_decide (server.valid_to license_data
                           ≤ server.valid_from license_data)
           then raise (HTTPException 400 "valid_to must be after valid_from")
           else
             let license := server.to_row license_data in
             add_license (server.license_key license_data) license ;;
             ret (server.license_key license_data, license)
       end
   end)%db.

Definition get_license_by_key (license_key : string) : Db models.License :=
  (license <- query (λ s, licenses s !! license_key) ;;
   match license with
   | None =>
       raise (HTTPException 404 ("License " +:+ license_key +:+ " not found"))
   | Some license => ret license
   end)%db.

(** [update_data] holds the fields of [LicenseUpdate]; a field that is
    absent and a field that is [None] are treated alike. *)
Definition update_license (license_key : string)
    (update_data : LicenseUpdate.t) : Db models.License :=
  (license <- get_license_by_key license_key ;;
   match LicenseUpdate.vendor_id update_data with
   | Some vendor_id =>
       if bool_decide (vendor_id ≠ "") then
         vendor <- query (λ s, vendors s !! vendor_id) ;;
         match vendor with
         | None => raise (HTTPException 400 "Vendor not found")
         | Some _ => ret tt
         end
       else ret tt
   | None => ret tt
   end ;;
   let license := LicenseUpdate.apply update_data license in
   update_license_row license_key license ;;
   ret license)%db.

Definition delete_license (license_key : string) : Db string :=
  (get_license_by_key license_key ;;
   delete_license_row license_key ;;
   ret ("License " +:+ license_key +:+ " deleted successfully"))%db.

Definition get_expiring_licenses (today : Z) (days : Z)
  : Db (list (string * models.License)) :=
  (let expiry_date := today + days in
   query (λ s,
     all (filter (λ r, models.valid_to r.2 ≤ expiry_date
                       ∧ today ≤ models.valid_to r.2) (licenses s))))%db.

End LicenseService.

(** ** The session of a request

    The routes write the audit log next to the tables of the services. *)

Record Database : Type := {
  store : Store;
  audit_logs : gmap string models.AuditLog
}.

Definition Route (A : Type) : Type := Database → outcome A * Database.

Definition route_ret {A : Type} (a : A) : Route A := λ d, (Return a, d).

Definition route_raise {A : Type} (e : Exception) : Route A :=
  λ d, (Raise e, d).

Definition route_bind {A B : Type} (m : Route A) (k : A → Route B)
  : Route B :=
  λ d, match m d with
       | (Return a, d') => k a d'
       | (Raise e, d') => (Raise e, d')
       end.

(** A service call or a query of the route on the same session. *)
Definition on_store {A : Type} (m : Db A) : Route A :=
  λ d, match m (store d) with
       | (result, s') =>
           (result, {| store := s'; audit_logs := audit_logs d |})
       end.

Declare Scope route_scope.
Delimit Scope route_scope with route.
Bind Scope route_scope with Route.

Notation "x <- m ;; k" := (route_bind m (λ x, k))
  (at level 100, m at next level, right associativity) : route_scope.
Notation "m ;; k" := (route_bind m (λ _, k))
  (at level 100, right associativity) : route_scope.

(** ** services/audit_service.py *)

Module AuditService.

(** [db.add(audit_log); db.commit()] inside [try]: when the commit raises,
    which it does when the log id is taken, the exception is caught, the
    session rolled back and nothing is stored; the caller goes on. *)
Definition log_action (uuid4 : string) (utcnow : Z)
    (user_id entity_type entity_id action : string)
    (details : option string) : Route unit :=
  λ d, match audit_logs d !! uuid4 with
       | Some _ => (Return tt, d)
       | None =>
           (Return tt,
            {| store := store d;
               audit_logs :=
                 <[uuid4 := {| models.user_id := user_id;
                               models.entity_type := entity_type;
                               models.entity_id := entity_id;
                               models.action := action;
                               models.timestamp := utcnow;
                               models.details := details |}]>
                   (audit_logs d) |})
       end.

End AuditService.

(** ** server.py: the routes of assignments and licenses

    [current_user] is the row [get_current_user] has read from [users];
    [log_id] and [log_time] are the [uuid4()] and the [utcnow()] of the
    audit entry. *)

Module api_router.

Definition ADMIN : string := "ADMIN".
Definition ENGINEER : string := "ENGINEER".

Record AssignmentCreate : Type := {
  license_key : string;
  device_id : string;
  assigned_by : string
}.

(** [class LicenseUpdate(BaseModel)] as the route reads it:
    [model_dump(exclude_unset=True)] keeps the fields the request has set,
    also those it has set to null. [None] is a field that is not set,
    [Some None] a field set to null. *)
Record LicenseUpdate : Type := {
  software_name : option (option string);
  vendor_id : option (option string);
  valid_from : option (option Z);
  valid_to : option (option Z);
  license_type : option (option models.LicenseType);
  max_usage : option (option Z);
  notes : option (option string)
}.

(** [current_user.role.value]; [None] has no [value]. *)
Definition role_value (current_user : string * models.User) : Route string :=
  match models.role current_user.2 with
  | Some role => route_ret (models.UserRole_value role)
  | None => route_raise AttributeError
  end.

Definition create_assignment (uuid4 : string) (utcnow : Z)
    (log_id : string) (log_time : Z)
    (assignment_data : AssignmentCreate)
    (current_user : string * models.User)
  : Route (string * models.Assignment) :=
  (role <- role_value current_user ;;
   if bool_decide (role ∉ [ADMIN; ENGINEER]) then
     route_raise
       (HTTPException 403 "Only Admin and Engineer can assign licenses")
   else
     assignment <- on_store
       (AssignmentService.create_assignment uuid4 utcnow
          (license_key assignment_data) (device_id assignment_data)
          (assigned_by assignment_data)) ;;
     AuditService.log_action log_id log_time current_user.1
       "ASSIGNMENT" assignment.1 "ASSIGN"
       (Some ("Assigned license " +:+ models.license_key assignment.2
              +:+ " to device " +:+ models.device_id assignment.2)) ;;
     route_ret assignment)%route.

Definition delete_assignment (log_id : string) (log_time : Z)
    (assignment_id : string) (current_user : string * models.User)
  : Route AssignmentService.DeleteResult :=
  (role <- role_value current_user ;;
   if bool_decide (role ∉ [ADMIN; ENGINEER]) then
     route_raise
       (HTTPException 403 "Only Admin and Engineer can unassign licenses")
   else
     assignment <- on_store
       (query (λ s, assignments s !! assignment_id)) ;;
     result <- on_store (AssignmentService.delete_assignment assignment_id) ;;
     match assignment with
     | Some assignment =>
         let assignment_info :=
           "License " +:+ models.license_key assignment
           +:+ " from device " +:+ models.device_id assignment in
         AuditService.log_action log_id log_time current_user.1
           "ASSIGNMENT" assignment_id "UNASSIGN"
           (Some ("Unassigned " +:+ assignment_info))
     | None => route_ret tt
     end ;;
     route_ret result)%route.

Definition create_license (log_id : string) (log_time : Z)
    (license_data : server.LicenseCreate)
    (current_user : string * models.User)
  : Route (string * models.License) :=
  (role <- role_value current_user ;;
   if bool_decide (role ≠ ADMIN) then
     route_raise (HTTPException 403 "Only Admin can add licenses")
   else
     existing <- on_store
       (query (λ s, licenses s !! server.license_key license_data)) ;;
     match existing with
     | Some _ => route_raise (HTTPException 400 "License key already exists")
     | None =>
         vendor <- on_store
           (query (λ s, vendors s !! server.vendor_id license_data)) ;;
         match vendor with
         | None => route_raise (HTTPException 400 "Vendor not found")
         | Some _ =>
             let license := server.to_row license_data in
             on_store
               (add_license (server.license_key license_data) license) ;;
             AuditService.log_action log_id log_time current_user.1
               "LICENSE" (server.license_key license_data) "CREATE"
               (Some ("Created license "
                      +:+ server.license_key license_data
                      +:+ " for " +:+ models.software_name license)) ;;
             route_ret (server.license_key license_data, license)
         end
     end)%route.

(** [setattr(license, key, value)] for a column that is [nullable=False]:
    [None] when the column would hold null, which the commit refuses. *)
Definition set_column {A : Type} (value : option (option A)) (old : A)
  : option A :=
  match value with
  | None => Some old
  | Some value => value
  end.

(** The row after [for key, value in update_data.items(): setattr(license,
    key, value)], [None] when a column that is not nullable holds null. *)
Definition set_columns (update_data : LicenseUpdate)
    (license : models.License) : option models.License :=
  software_name ← set_column (software_name update_data)
                     (models.software_name license) ;
  vendor_id ← set_column (vendor_id update_data)
                 (models.vendor_id license) ;
  valid_from ← set_column (valid_from update_data)
                  (models.valid_from license) ;
  valid_to ← set_column (valid_to update_data) (models.valid_to license) ;
  license_type ← set_column (license_type update_data)
                    (models.license_type license) ;
  max_usage ← set_column (max_usage update_data)
                 (models.max_usage license) ;
  Some {| models.software_name := software_name;
          models.vendor_id := vendor_id;
          models.valid_from := valid_from;
          models.valid_to := valid_to;
          models.license_type := license_type;
          models.max_usage := max_usage;
          models.notes := default (models.notes license)
                            (notes update_data) |}.

Definition update_license (log_id : string) (log_time : Z)
    (license_key : string) (license_data : LicenseUpdate)
    (current_user : string * models.User) : Route models.License :=
  (role <- role_value current_user ;;
   if bool_decide (role ≠ ADMIN) then
     route_raise (HTTPException 403 "Only Admin can edit licenses")
   else
     license <- on_store (query (λ s, licenses s !! license_key)) ;;
     match license with
     | None => route_raise (HTTPException 404 "License not found")
     | Some license =>
         match vendor_id license_data with
         | Some vendor_id =>
             (* a comparison with null selects no row *)
             vendor <- on_store
               (query (λ s, vendor_id ≫= λ vendor_id,
                              vendors s !! vendor_id)) ;;
             match vendor with
             | None => route_raise (HTTPException 400 "Vendor not found")
             | Some _ => route_ret tt
             end
         | None => route_ret tt
         end ;;
         match set_columns license_data license with
         | None => route_raise IntegrityError
         | Some license =>
             on_store (update_license_row license_key license) ;;
             AuditService.log_action log_id log_time current_user.1
               "LICENSE" license_key "UPDATE"
               (Some ("Updated license " +:+ license_key)) ;;
             route_ret license
         end
     end)%route.

Definition delete_license (log_id : string) (log_time : Z)
    (license_key : string) (current_user : string * models.User)
  : Route string :=
  (role <- role_value current_user ;;
   if bool_decide (role ≠ ADMIN) then
     route_raise (HTTPException 403 "Only Admin can delete licenses")
   else
     license <- on_store (query (λ s, licenses s !! license_key)) ;;
     match license with
     | None => route_raise (HTTPException 404 "License not found")
     | Some license =>
         let license_info :=
           license_key +:+ " (" +:+ models.software_name license +:+ ")" in
         on_store (delete_license_row license_key) ;;
         AuditService.log_action log_id log_time current_user.1
           "LICENSE" license_key "DELETE"
           (Some ("Deleted license " +:+ license_info)) ;;
         route_ret "License deleted successfully"
     end)%route.

End api_router.

(** ** Sequences of allocation commands *)

Inductive Op : Type :=
| Assign (uuid4 : string) (utcnow : Z)
         (license_key device_id assigned_by : string)
| Release (assignment_id : string).

(** The store one command leaves, whether it returns or raises. *)
Definition step (s : Store) (op : Op) : Store :=
  match op with
  | Assign uuid4 utcnow license_key device_id assigned_by =>
      (AssignmentService.create_assignment
         uuid4 utcnow license_key device_id assigned_by s).2
  | Release assignment_id =>
      (AssignmentService.delete_assignment assignment_id s).2
  end.

Definition run (ops : list Op) (s : Store) : Store := foldl step s ops.

(** ** Vocabulary of the statements *)

(** [sub] occurs in [text]. *)
Definition includes (sub text : string) : Prop :=
  ∃ pre post : string, text = pre +:+ sub +:+ post.

(** The assignment rows that bind [license_key] to [device_id]. *)
Definition binds (license_key device_id : string) (a : models.Assignment)
  : Prop :=
  models.license_key a = license_key ∧ models.device_id a = device_id.

(** At most one row of the table binds each pair. *)
Definition unique_pairs (s : Store) : Prop :=
  ∀ (i j : string) (a b : models.Assignment),
    assignments s !! i = Some a → assignments s !! j = Some b →
    models.license_key a = models.license_key b →
    models.device_id a = models.device_id b →
    i = j.

(** The number of rows that reference [license_key]. *)
Definition usage (s : Store) (license_key : string) : Z :=
  count (by_license license_key (assignments s)).

(** The store an accepted assignment leaves. *)
Definition with_assignment (s : Store) (assignment_id : string)
    (row : models.Assignment) : Store :=
  {| vendors := vendors s;
     devices := devices s;
     licenses := licenses s;
     assignments := <[assignment_id := row]> (assignments s) |}.





(** The store an accepted license leaves. *)
Definition with_license (s : Store) (license_key : string)
    (row : models.License) : Store :=
  {| vendors := vendors s;
     devices := devices s;
     licenses := <[license_key := row]> (licenses s);
     assignments := assignments s |}.

(** Every assignment row references a license of the store. *)
Definition licenses_present (s : Store) : Prop :=
  ∀ i a, assignments s !! i = Some a →
         is_Some (licenses s !! models.license_key a).

(** ** Sequences of commands on licenses and assignments *)

Inductive Command : Type :=
| Allocation (op : Op)
| CreateLicense (license_data : server.LicenseCreate)
| UpdateLicense (license_key : string) (update_data : LicenseUpdate.t)
| DeleteLicense (license_key : string).

(** The store one command leaves, whether it returns or raises. *)
Definition exec (s : Store) (c : Command) : Store :=
  match c with
  | Allocation op => step s op
  | CreateLicense license_data =>
      (LicenseService.create_license license_data s).2
  | UpdateLicense license_key update_data =>
      (LicenseService.update_license license_key update_data s).2
  | DeleteLicense license_key =>
      (LicenseService.delete_license license_key s).2
  end.

Definition exec_all (cs : list Command) (s : Store) : Store :=
  foldl exec s cs.

(** No field is set. *)
Definition no_update : LicenseUpdate.t :=
  {| LicenseUpdate.software_name := None;
     LicenseUpdate.vendor_id := None;
     LicenseUpdate.valid_from := None;
     LicenseUpdate.valid_to := None;
     LicenseUpdate.license_type := None;
     LicenseUpdate.max_usage := None;
     LicenseUpdate.notes := None |}.

(** ** Requests to the routes *)

Inductive Request : Type :=
| PostAssignment (uuid4 : string) (utcnow : Z)
    (assignment_data : api_router.AssignmentCreate)
| DeleteAssignment (assignment_id : string)
| PostLicense (license_data : server.LicenseCreate)
| PutLicense (license_key : string) (license_data : api_router.LicenseUpdate)
| DeleteLicenseKey (license_key : string).

(** A request with the user it is made for and the id and time its audit
    entry gets. *)
Record Call : Type := {
  current_user : string * models.User;
  log_id : string;
  log_time : Z;
  request : Request
}.

(** Whether a route raised, and which exception. *)
Definition raised {A : Type} (result : outcome A * Database)
  : option Exception :=
  match result.1 with
  | Return _ => None
  | Raise e => Some e
  end.

(** The exception of a call, if it raises, and the database it leaves. *)
Definition handle (c : Call) (d : Database) : option Exception * Database :=
  match request c with
  | PostAssignment uuid4 utcnow assignment_data =>
      let result :=
        api_router.create_assignment uuid4 utcnow (log_id c) (log_time c)
          assignment_data (current_user c) d in
      (raised result, result.2)
  | DeleteAssignment assignment_id =>
      let result :=
        api_router.delete_assignment (log_id c) (log_time c)
          assignment_id (current_user c) d in
      (raised result, result.2)
  | PostLicense license_data =>
      let result :=
        api_router.create_license (log_id c) (log_time c)
          license_data (current_user c) d in
      (raised result, result.2)
  | PutLicense license_key license_data =>
      let result :=
        api_router.update_license (log_id c) (log_time c)
          license_key license_data (current_user c) d in
      (raised result, result.2)
  | DeleteLicenseKey license_key =>
      let result :=
        api_router.delete_license (log_id c) (log_time c)
          license_key (current_user c) d in
      (raised result, result.2)
  end.

Definition handle_all (calls : list Call) (d : Database) : Database :=
  foldl (λ d c, (handle c d).2) d calls.

(** The role of the user of a call. *)
Definition role_of (c : Call) : option models.UserRole :=
  models.role (current_user c).2.

(** The table and the action the audit entry of a request names. *)
Definition audited_as (r : Request) : string * string :=
  match r with
  | PostAssignment _ _ _ => ("ASSIGNMENT", "ASSIGN")
  | DeleteAssignment _ => ("ASSIGNMENT", "UNASSIGN")
  | PostLicense _ => ("LICENSE", "CREATE")
  | PutLicense _ _ => ("LICENSE", "UPDATE")
  | DeleteLicenseKey _ => ("LICENSE", "DELETE")
  end.

(** The roles a request is open to. *)
Definition allowed (r : Request) (role : models.UserRole) : Prop :=
  match r with
  | PostAssignment _ _ _ | DeleteAssignment _ =>
      role = models.ADMIN ∨ role = models.ENGINEER
  | _ => role = models.ADMIN
  end.

(** The audit entry [e] is the one of the call [c]. *)
Definition entry_of (c : Call) (e : models.AuditLog) : Prop :=
  models.user_id e = (current_user c).1
  ∧ models.timestamp e = log_time c
  ∧ (models.entity_type e, models.action e) = audited_as (request c)
  ∧ ∃ role, role_of c = Some role ∧ allowed (request c) role.

(** The store a request leaves when its route returns. *)
Definition stored (r : Request) (s : Store) : Store :=
  match r with
  | PostAssignment uuid4 utcnow assignment_data =>
      (AssignmentService.create_assignment uuid4 utcnow
         (api_router.license_key assignment_data)
         (api_router.device_id assignment_data)
         (api_router.assigned_by assignment_data) s).2
  | DeleteAssignment assignment_id =>
      (AssignmentService.delete_assignment assignment_id s).2
  | PostLicense license_data =>
      with_license s (server.license_key license_data)
        (server.to_row license_data)
  | PutLicense license_key license_data =>
      match licenses s !! license_key
            ≫= api_router.set_columns license_data with
      | Some license => with_license s license_key license
      | None => s
      end
  | DeleteLicenseKey license_key => (delete_license_row license_key s).2
  end.

(** The dict [model_dump(exclude_unset=True)] of a request body as
    [LicenseService.update_license] reads it: the service skips a field
    that is null like one that is not set. *)
Definition dumped (license_data : api_router.LicenseUpdate)
  : LicenseUpdate.t :=
  {| LicenseUpdate.software_name :=
       mjoin (api_router.software_name license_data);
     LicenseUpdate.vendor_id := mjoin (api_router.vendor_id license_data);
     LicenseUpdate.valid_from := mjoin (api_router.valid_from license_data);
     LicenseUpdate.valid_to := mjoin (api_router.valid_to license_data);
     LicenseUpdate.license_type :=
       mjoin (api_router.license_type license_data);
     LicenseUpdate.max_usage := mjoin (api_router.max_usage license_data);
     LicenseUpdate.notes := mjoin (api_router.notes license_data) |}.

(** No field of the request body is set to null. *)
Definition no_null (license_data : api_router.LicenseUpdate) : Prop :=
  api_router.software_name license_data ≠ Some None
  ∧ api_router.vendor_id license_data ≠ Some None
  ∧ api_router.valid_from license_data ≠ Some None
  ∧ api_router.valid_to license_data ≠ Some None
  ∧ api_router.license_type license_data ≠ Some None
  ∧ api_router.max_usage license_data ≠ Some None
  ∧ api_router.notes license_data ≠ Some None.

(** ** Devices at risk, row by row *)

(** The license of an assignment row expired before [today]. *)
Definition expired_row (s : Store) (today : Z)
    (row : string * models.Assignment) : bool :=
  match licenses s !! models.license_key row.2 with
  | Some license => bool_decide (models.valid_to license < today)
  | None => false
  end.

(** The license of an assignment row expires from [today] to
    [threshold_date]. *)
Definition expiring_row (s : Store) (today threshold_date : Z)
    (row : string * models.Assignment) : bool :=
  match licenses s !! models.license_key row.2 with
  | Some license =>
      bool_decide (today ≤ models.valid_to license ≤ threshold_date)
  | None => false
  end.

(** How many assignments of a device are on an expired license, and how
    many on a license about to expire. *)
Definition expired_of (s : Store) (today : Z) (device_id : string) : Z :=
  len (filter (λ row, expired_row s today row = true)
              (map_to_list (by_device device_id (assignments s)))).

Definition expiring_of (s : Store) (today threshold_date : Z)
    (device_id : string) : Z :=
  len (filter (λ row, expiring_row s today threshold_date row = true)
              (map_to_list (by_device device_id (assignments s)))).

(** One turn of the loop over the assignments of a device. *)
Definition risk_step (s : Store) (today threshold_date : Z)
    (row : string * models.Assignment) (c : AlertService.RiskCounts)
  : outcome AlertService.RiskCounts :=
  match licenses s !! models.license_key row.2 with
  | None => Raise AttributeError
  | Some license =>
      if bool_decide (models.valid_to license < today) then
        Return
          {| AlertService.rk_expired_count :=
               AlertService.rk_expired_count c + 1;
             AlertService.rk_expiring_soon_count :=
               AlertService.rk_expiring_soon_count c;
             AlertService.rk_expired_licenses :=
               AlertService.rk_expired_licenses c
               ++ [models.software_name license];
             AlertService.rk_expiring_licenses :=
               AlertService.rk_expiring_licenses c |}
      else if bool_decide (models.valid_to license ≤ threshold_date) then
        Return
          {| AlertService.rk_expired_count :=
               AlertService.rk_expired_count c;
             AlertService.rk_expiring_soon_count :=
               AlertService.rk_expiring_soon_count c + 1;
             AlertService.rk_expired_licenses :=
               AlertService.rk_expired_licenses c;
             AlertService.rk_expiring_licenses :=
               AlertService.rk_expiring_licenses c
               ++ [ {| AlertService.ed_name := models.software_name license;
                       AlertService.ed_days_left :=
                         models.valid_to license - today |} ] |}
      else Return c
  end.

(** What an entry of the devices-at-risk list says about its device. *)
Definition risk_entry_ok (s : Store) (today days_threshold : Z)
    (r : AlertService.DeviceRisk) : Prop :=
  ∃ device,
    devices s !! AlertService.r_device_id r = Some device
    ∧ models.status device = models.ACTIVE
    ∧ AlertService.r_device_type r = models.type device
    ∧ AlertService.r_location r = models.location device
    ∧ AlertService.r_ip_address r = models.ip_address device
    ∧ AlertService.r_expired_licenses r
      = expired_of s today (AlertService.r_device_id r)
    ∧ AlertService.r_expiring_soon r
      = expiring_of s today (today + days_threshold)
                    (AlertService.r_device_id r)
    ∧ len (AlertService.r_expired_license_names r)
      = AlertService.r_expired_licenses r
    ∧ len (AlertService.r_expiring_license_details r)
      = AlertService.r_expiring_soon r
    ∧ Forall (λ d, 0 ≤ AlertService.ed_days_left d ≤ days_threshold)
             (AlertService.r_expiring_license_details r)
    ∧ 0 < AlertService.r_expired_licenses r + AlertService.r_expiring_soon r
    ∧ AlertService.r_severity r
      = (if bool_decide (0 < AlertService.r_expired_licenses r)
         then "CRITICAL" else "WARNING").

(** A device row has an assignment on an expired or expiring license. *)
Definition at_risk_device (s : Store) (today days_threshold : Z)
    (row : string * models.Device) : Prop :=
  0 < expired_of s today row.1
  ∨ 0 < expiring_of s today (today + days_threshold) row.1.

(** The entry of the devices-at-risk list for a device row. *)
Definition risk_of_row (s : Store) (today days_threshold : Z)
    (row : string * models.Device) (r : AlertService.DeviceRisk) : Prop :=
  AlertService.r_device_id r = row.1
  ∧ AlertService.r_device_type r = models.type row.2
  ∧ AlertService.r_location r = models.location row.2
  ∧ AlertService.r_ip_address r = models.ip_address row.2
  ∧ AlertService.r_expired_licenses r = expired_of s today row.1
  ∧ AlertService.r_expiring_soon r
    = expiring_of s today (today + days_threshold) row.1
  ∧ len (AlertService.r_expired_license_names r)
    = AlertService.r_expired_licenses r
  ∧ len (AlertService.r_expiring_license_details r)
    = AlertService.r_expiring_soon r
  ∧ Forall (λ d, 0 ≤ AlertService.ed_days_left d ≤ days_threshold)
           (AlertService.r_expiring_license_details r)
  ∧ AlertService.r_severity r
    = (if bool_decide (0 < AlertService.r_expired_licenses r)
       then "CRITICAL" else "WARNING").

(** The sort key of the devices-at-risk list. *)
Definition risk_key (r : AlertService.DeviceRisk) : bool * Z :=
  (bool_decide (AlertService.r_severity r = "WARNING"),
   - AlertService.r_expired_licenses r).

(** ** Overused licenses, row by row *)

(** The usage percentage of a row of [licenses], before rounding. *)
Definition usage_percentage (s : Store) (row : string * models.License)
  : Q :=
  if bool_decide (0 < models.max_usage row.2)
  then percent_of (usage s row.1) (models.max_usage row.2)
  else 0%Q.

(** The entry of the overused-licenses list for a row of [licenses]. *)
Definition overused_of_row (s : Store) (row : string * models.License)
    (o : AlertService.OverusedAlert) : Prop :=
  AlertService.ou_license_key o = row.1
  ∧ AlertService.ou_software_name o = models.software_name row.2
  ∧ AlertService.ou_vendor_id o = models.vendor_id row.2
  ∧ AlertService.ou_current_usage o = usage s row.1
  ∧ AlertService.ou_max_usage o = models.max_usage row.2
  ∧ AlertService.ou_available o = models.max_usage row.2 - usage s row.1
  ∧ AlertService.ou_usage_percentage o = round2 (usage_percentage s row)
  ∧ AlertService.ou_severity o
    = AlertService._get_usage_severity (usage_percentage s row).

(** The sum of [f] over a list. *)
Definition total {A : Type} (f : A → Z) (xs : list A) : Z :=
  foldr (λ x sum, f x + sum) 0 xs.




(** ** Text as code points *)

(** The code points of an ASCII text. *)
Definition code_points (text : string) : list Z :=
  (λ a, Z.of_N (Ascii.N_of_ascii a)) <$> String.list_ascii_of_string text.

(** The number a run of digits denotes. *)
Definition number (decimal_value : Z → Z) (digits : list Z) : Z :=
  foldl (λ value c, value * 10 + decimal_value c) 0 digits.

(** One to three digits. *)
Definition digit_run (is_decimal : Z → bool) (digits : list Z) : Prop :=
  (1 ≤ length digits ≤ 3)%nat ∧ Forall (λ c, is_decimal c = true) digits.

(** One to three digits that denote at most 255. *)
Definition octet (is_decimal : Z → bool) (decimal_value : Z → Z)
    (digits : list Z) : Prop :=
  digit_run is_decimal digits ∧ number decimal_value digits ≤ 255.

(** The digits, their values and the white space of ASCII. *)
Definition ascii_decimal (c : Z) : bool := bool_decide (48 ≤ c ≤ 57).
Definition ascii_value (c : Z) : Z := c - 48.
Definition ascii_space (c : Z) : bool :=
  bool_decide (9 ≤ c ≤ 13 ∨ 28 ≤ c ≤ 32).

(** What the proofs use of Python's tables: the ASCII digits are digits
    with their values, no code point below them is a digit, a digit has
    a value from 0 to 9 and is no white space, the line feed is white
    space. *)
Definition python_tables (is_decimal : Z → bool) (decimal_value : Z → Z)
    (is_space : Z → bool) : Prop :=
  (∀ c, 48 ≤ c ≤ 57 → is_decimal c = true ∧ decimal_value c = c - 48)
  ∧ (∀ c, c < 48 → is_decimal c = false)
  ∧ (∀ c, is_decimal c = true → 0 ≤ decimal_value c ≤ 9)
  ∧ (∀ c, is_decimal c = true → is_space c = false)
  ∧ is_space 10 = true.

(** A dotted quad: four runs of digits with dots between, and what
    follows them. *)
Definition quad (o1 o2 o3 o4 tail : list Z) : list Z :=
  o1 ++ 46 :: o2 ++ 46 :: o3 ++ 46 :: o4 ++ tail.

(** The text of the address [a.b.c.d]. *)
Definition dotted (a b c d : Z) : list Z :=
  quad (code_points (str a)) (code_points (str b)) (code_points (str c))
    (code_points (str d)) [].

(** ** Sample data *)

Module Sample.

Definition vendor : models.Vendor :=
  {| models.vendor_name := "Adobe"; models.support_email := None |}.

Definition license (valid_to max_usage : Z) : models.License :=
  {| models.software_name := "Photoshop";
     models.vendor_id := "vendor-123";
     models.valid_from := 100;
     models.valid_to := valid_to;
     models.license_type := models.PER_USER;
     models.max_usage := max_usage;
     models.notes := None |}.

Definition device (status : models.DeviceStatus) : models.Device :=
  {| models.type := "Workstation";
     models.ip_address := "192.168.1.10";
     models.location := "Office A";
     models.model := None;
     models.status := status |}.

Definition assignment (license_key device_id : string)
  : models.Assignment :=
  {| models.license_key := license_key;
     models.device_id := device_id;
     models.assigned_by := "user-123";
     models.assigned_at := 0 |}.

(** One vendor, license LIC-1 with capacity 2, two devices, and DEV-A
    holding LIC-1. *)
Definition store : Store :=
  {| vendors := {[ "vendor-123" := vendor ]};
     devices := {[ "DEV-A" := device models.ACTIVE;
                   "DEV-B" := device models.ACTIVE ]};
     licenses := {[ "LIC-1" := license 500 2 ]};
     assignments := {[ "ASSIGN-001" := assignment "LIC-1" "DEV-A" ]} |}.



(** A single license of capacity 0 and no assignment. *)
Definition zero_capacity : Store :=
  {| vendors := {[ "vendor-123" := vendor ]};
     devices := ∅;
     licenses := {[ "LIC-0" := license 2000 0 ]};
     assignments := ∅ |}.

(** A device under maintenance holding an expired license. *)
Definition maintenance : Store :=
  {| vendors := {[ "vendor-123" := vendor ]};
     devices := {[ "DEV-A" := device models.ACTIVE;
                   "DEV-M" := device models.MAINTENANCE ]};
     licenses := {[ "LIC-1" := license 990 5 ]};
     assignments := {[ "ASSIGN-001" := assignment "LIC-1" "DEV-A";
                       "ASSIGN-002" := assignment "LIC-1" "DEV-M" ]} |}.


(** LIC-1 of capacity 2 with both units assigned, LIC-2 of capacity 4 with
    three, LIC-3 of capacity 0. *)
Definition busy : Store :=
  {| vendors := {[ "vendor-123" := vendor ]};
     devices := {[ "DEV-A" := device models.ACTIVE;
                   "DEV-B" := device models.MAINTENANCE;
                   "DEV-C" := device models.OBSOLETE ]};
     licenses := {[ "LIC-1" := license 1005 2;
                    "LIC-2" := license 990 4;
                    "LIC-3" := license 1500 0 ]};
     assignments := {[ "ASSIGN-001" := assignment "LIC-1" "DEV-A";
                       "ASSIGN-002" := assignment "LIC-1" "DEV-B";
                       "ASSIGN-003" := assignment "LIC-2" "DEV-A";
                       "ASSIGN-004" := assignment "LIC-2" "DEV-B";
                       "ASSIGN-005" := assignment "LIC-2" "DEV-C" ]} |}.

Definition request (max_usage : Z) : server.LicenseCreate :=
  {| server.license_key := "LIC-9";
     server.software_name := "AutoCAD";
     server.vendor_id := "vendor-123";
     server.valid_from := 100;
     server.valid_to := 465;
     server.license_type := models.ENTERPRISE;
     server.max_usage := max_usage;
     server.notes := None |}.


(** A request body that sets [max_usage] to 1 and nothing else. *)
Definition shrink : api_router.LicenseUpdate :=
  {| api_router.software_name := None;
     api_router.vendor_id := None;
     api_router.valid_from := None;
     api_router.valid_to := None;
     api_router.license_type := None;
     api_router.max_usage := Some (Some 1);
     api_router.notes := None |}.

(** Users of each role, and one without a role. *)
Definition user (role : option models.UserRole) : string * models.User :=
  ("U1", {| models.email := "user@example.com";
            models.name := "User";
            models.password_hash := "";
            models.role := role |}).

Definition database : Database := Build_Database store ∅.

(** A request to assign LIC-1 to DEV-B in the name of another user. *)
Definition post_assignment : Request :=
  PostAssignment "ASSIGN-002" 0
    {| api_router.license_key := "LIC-1";
       api_router.device_id := "DEV-B";
       api_router.assigned_by := "U2" |}.

Definition call (role : option models.UserRole) (log_id : string)
    (r : Request) : Call :=
  Build_Call (user role) log_id 0 r.

End Sample.

(** * Properties *)

(** ** Rounding *)




(** ** Loops and sorting *)

(** A loop whose body only reads the store and returns on the items that
    satisfy [Q]: an invariant [P] over the items already visited and the
    local variables holds at the end. *)
Lemma for_each_inv_on {A L : Type} (Q : A → Prop) (P : list A → L → Prop)
    (xs : list A) (body : A → L → Db L) (locals : L) (s : Store) :
  Forall Q xs →
  P [] locals →
  (∀ visited x l, Q x → P visited l →
     ∃ l', body x l s = (Return l', s) ∧ P (visited ++ [x]) l') →
  ∃ l, for_each xs body locals s = (Return l, s) ∧ P xs l.
Proof.
  intros HQ Hinit Hbody.
  cut (∀ visited l, P visited l →
         ∃ l', for_each xs body l s = (Return l', s) ∧ P (visited ++ xs) l').
  { intros Hgen. apply (Hgen [] locals Hinit). }
  induction HQ as [|x xs Hx _ IH]; intros visited l HP; simpl.
  - exists l. by rewrite app_nil_r.
  - destruct (Hbody visited x l Hx HP) as (l1 & Hrun & HP1).
    destruct (IH (visited ++ [x]) l1 HP1) as (l2 & Hrest & HP2).
    exists l2. unfold bind. rewrite Hrun, Hrest.
    by rewrite <- app_assoc in HP2.
Qed.

Lemma for_each_inv {A L : Type} (P : list A → L → Prop)
    (xs : list A) (body : A → L → Db L) (locals : L) (s : Store) :
  P [] locals →
  (∀ visited x l, P visited l →
     ∃ l', body x l s = (Return l', s) ∧ P (visited ++ [x]) l') →
  ∃ l, for_each xs body locals s = (Return l, s) ∧ P xs l.
Proof.
  intros Hinit Hbody.
  apply (for_each_inv_on (λ _, True)); [by apply Forall_true | done |].
  intros visited x l _. apply Hbody.
Qed.

(** The same for a body that may raise: if the loop returns, the store is
    the one it started from and the invariant holds. *)
Lemma for_each_inv_returns {A L : Type} (P : list A → L → Prop)
    (xs : list A) (body : A → L → Db L) (locals : L) (s : Store) :
  P [] locals →
  (∀ visited x l l' s', P visited l →
     body x l s = (Return l', s') → s' = s ∧ P (visited ++ [x]) l') →
  ∀ l s', for_each xs body locals s = (Return l, s') → s' = s ∧ P xs l.
Proof.
  intros Hinit Hbody.
  cut (∀ visited l0 l s', P visited l0 →
         for_each xs body l0 s = (Return l, s') →
         s' = s ∧ P (visited ++ xs) l).
  { intros Hgen l s'. apply (Hgen [] locals l s' Hinit). }
  induction xs as [|x xs IH]; intros visited l0 l s' HP; simpl.
  - unfold ret. intros [= <- <-]. by rewrite app_nil_r.
  - unfold bind. destruct (body x l0 s) as [[l1 | e] s1] eqn:Hrun; [| done].
    destruct (Hbody visited x l0 l1 s1 HP Hrun) as [-> HP1].
    intros Hrest. destruct (IH (visited ++ [x]) l1 l s' HP1 Hrest) as [-> HP2].
    by rewrite <- app_assoc in HP2.
Qed.

Lemma Forall2_Forall_r {A B : Type} (R : A → B → Prop)
    (xs : list A) (ys : list B) :
  Forall2 R xs ys → Forall (λ y, ∃ x, x ∈ xs ∧ R x y) ys.
Proof.
  induction 1 as [|x y xs ys Hxy _ IH]; constructor.
  - exists x. split; [left | done].
  - eapply Forall_impl; [exact IH |].
    intros y' (x' & Hin & HR). exists x'. split; [by right | done].
Qed.

Lemma insert_sorted_Permutation {A K : Type} (leb : K → K → bool)
    (key : A → K) (x : A) (xs : list A) :
  insert_sorted leb key x xs ≡ₚ x :: xs.
Proof.
  induction xs as [|y xs IH]; simpl; [done |].
  destruct (leb (key x) (key y)); [done |].
  rewrite IH. apply Permutation_swap.
Qed.

Lemma sorted_Permutation {A K : Type} (leb : K → K → bool) (key : A → K)
    (xs : list A) :
  sorted leb key xs ≡ₚ xs.
Proof.
  unfold sorted. induction xs as [|x xs IH]; simpl; [done |].
  by rewrite insert_sorted_Permutation, IH.
Qed.

Section sorting.

Context {A K : Type} (leb : K → K → bool) (key : A → K).
Hypothesis leb_total : ∀ a b, leb a b = true ∨ leb b a = true.
Hypothesis leb_trans :
  ∀ a b c, leb a b = true → leb b c = true → leb a c = true.

Let before (x y : A) : Prop := leb (key x) (key y) = true.

Lemma insert_sorted_StronglySorted (x : A) (xs : list A) :
  StronglySorted before xs →
  StronglySorted before (insert_sorted leb key x xs).
Proof.
  induction 1 as [|y xs Hxs IH Hy]; simpl.
  - repeat constructor.
  - destruct (leb (key x) (key y)) eqn:Hxy.
    + constructor; [by constructor |].
      constructor; [done |].
      eapply Forall_impl; [exact Hy |]. intros z Hz.
      by eapply leb_trans.
    + constructor; [done |].
      rewrite insert_sorted_Permutation. constructor; [| done].
      unfold before. destruct (leb_total (key x) (key y)); congruence.
Qed.

Lemma sorted_StronglySorted (xs : list A) :
  StronglySorted before (sorted leb key xs).
Proof.
  unfold sorted. induction xs as [|x xs IH]; simpl; [constructor |].
  by apply insert_sorted_StronglySorted.
Qed.

End sorting.

(** ** The session *)

Ltac run_db :=
  unfold bind, query, ret, raise, add_assignment, delete_assignment_row,
    add_license; simpl.

Lemma first_None {V : Type} (rows : gmap string V) :
  first rows = None ↔ rows = ∅.
Proof.
  unfold first. rewrite <- map_to_list_empty_iff.
  destruct (map_to_list rows); naive_solver.
Qed.

Lemma by_pair_empty (license_key device_id : string)
    (rows : gmap string models.Assignment) :
  by_pair license_key device_id rows = ∅
  ↔ ∀ i a, rows !! i = Some a → ¬ binds license_key device_id a.
Proof.
  unfold by_pair. rewrite map_empty_filter. unfold map_Forall, binds.
  naive_solver.
Qed.

Lemma append_assoc (a b c : string) : (a +:+ b) +:+ c = a +:+ (b +:+ c).
Proof.
  induction a as [|x a IH]; [done |].
  change (String x ((a +:+ b) +:+ c) = String x (a +:+ (b +:+ c))).
  by f_equal.
Qed.

Lemma usage_insert (license_key i : string) (a : models.Assignment)
    (rows : gmap string models.Assignment) :
  rows !! i = None →
  count (by_license license_key (<[i := a]> rows))
  = if decide (models.license_key a = license_key)
    then count (by_license license_key rows) + 1
    else count (by_license license_key rows).
Proof.
  intros Hfresh. unfold count, by_license. case_decide as Hk.
  - rewrite map_filter_insert_True; [| done].
    rewrite map_size_insert_None.
    + by rewrite Nat2Z.inj_succ.
    + apply map_lookup_filter_None. by left.
  - rewrite map_filter_insert_not'; [done | done |].
    intros y Hy. congruence.
Qed.

Lemma usage_delete (license_key i : string)
    (rows : gmap string models.Assignment) :
  count (by_license license_key (delete i rows))
  ≤ count (by_license license_key rows).
Proof.
  unfold count, by_license. rewrite map_filter_delete.
  pose proof (map_size_delete i
    (filter (λ r, models.license_key r.2 = license_key) rows)) as Hsz.
  destruct (filter _ rows !! i); simpl in Hsz; unfold id in Hsz; lia.
Qed.

(** ** Assign *)

(** C2. [create_assignment] checks its preconditions in order and the first
    failure wins: an unknown license is a 404 on the license; else an
    unknown device is a 404 on the device; else an existing row for the
    same (license, device) pair is a 400 "already assigned"; else a usage
    count not strictly below [max_usage] is a 400 whose message includes
    the count and the limit; in all four cases the store is unchanged.
    Otherwise, with a generated id that no row carries yet, the call
    returns and the store gains exactly the one row for the pair under
    that id. *)
Theorem create_assignment_checks_in_order
    (s : Store) (uuid4 : string) (utcnow : Z)
    (license_key device_id assigned_by : string) :
  let result :=
    AssignmentService.create_assignment
      uuid4 utcnow license_key device_id assigned_by s in
  (licenses s !! license_key = None →
   result
   = (Raise (HTTPException 404 ("License " +:+ license_key +:+ " not found")),
      s))
  ∧ (∀ license, licenses s !! license_key = Some license →
     (devices s !! device_id = None →
      result
      = (Raise (HTTPException 404 ("Device " +:+ device_id +:+ " not found")),
         s))
     ∧ (is_Some (devices s !! device_id) →
        ((∃ i a, assignments s !! i = Some a
                 ∧ binds license_key device_id a) →
         result
         = (Raise (HTTPException 400
                     ("License " +:+ license_key
                      +:+ " already assigned to device " +:+ device_id)),
            s))
        ∧ ((∀ i a, assignments s !! i = Some a
                   → ¬ binds license_key device_id a) →
           (models.max_usage license ≤ usage s license_key →
            ∃ detail,
              result = (Raise (HTTPException 400 detail), s)
              ∧ includes (str (usage s license_key)) detail
              ∧ includes (str (models.max_usage license)) detail)
           ∧ (usage s license_key < models.max_usage license →
              assignments s !! uuid4 = None →
              ∃ assignment,
                result
                = (Return (uuid4, assignment),
                   with_assignment s uuid4 assignment)
                ∧ binds license_key device_id assignment
                ∧ models.assigned_by assignment = assigned_by
                ∧ models.assigned_at assignment = utcnow
                ∧ size (assignments (with_assignment s uuid4 assignment))
                  = S (size (assignments s)))))).
Proof.
  cbv zeta. unfold AssignmentService.create_assignment. split.
  { intros Hl. run_db. by rewrite Hl. }
  intros license Hl. split.
  { intros Hd. run_db. by rewrite Hl, Hd. }
  intros [device Hd]. split.
  { intros (i & a & Hi & Ha). run_db. rewrite Hl, Hd.
    destruct (first (by_pair license_key device_id (assignments s)))
      as [row|] eqn:Hfirst; [done |].
    rewrite first_None, by_pair_empty in Hfirst. by destruct (Hfirst i a). }
  intros Hnone.
  assert (first (by_pair license_key device_id (assignments s)) = None)
    as Hfirst by by rewrite first_None, by_pair_empty.
  split.
  - intros Hfull. run_db. rewrite Hl, Hd, Hfirst.
    fold (usage s license_key).
    rewrite bool_decide_eq_true_2 by done.
    eexists. split; [reflexivity |]. split.
    + exists ("License " +:+ license_key +:+ " has reached maximum usage ("
              +:+ str (models.max_usage license)
              +:+ "). Currently assigned to "), " devices.".
      by rewrite !append_assoc.
    + exists ("License " +:+ license_key +:+ " has reached maximum usage ("),
        ("). Currently assigned to " +:+ str (usage s license_key)
         +:+ " devices.").
      by rewrite !append_assoc.
  - intros Hroom Hfresh. run_db. rewrite Hl, Hd, Hfirst.
    fold (usage s license_key).
    rewrite bool_decide_eq_false_2 by lia.
    rewrite Hfresh. eexists. split; [reflexivity |].
    repeat split. simpl. by apply map_size_insert_None.
Qed.

(** The scenario of a license of capacity 2 with one row: a second device
    is accepted. *)
Lemma create_assignment_checks_in_order_witness :
  ∃ assignment,
    AssignmentService.create_assignment
      "ASSIGN-002" 5 "LIC-1" "DEV-B" "user-123" Sample.store
    = (Return ("ASSIGN-002", assignment),
       with_assignment Sample.store "ASSIGN-002" assignment)
    ∧ binds "LIC-1" "DEV-B" assignment.
Proof.
  destruct (create_assignment_checks_in_order
              Sample.store "ASSIGN-002" 5 "LIC-1" "DEV-B" "user-123")
    as [_ Hrest].
  destruct (Hrest (Sample.license 500 2) eq_refl) as [_ Hdev].
  destruct Hdev as [_ Hpair]; [by eexists |].
  destruct Hpair as [_ Hroom].
  { intros i a Hi [_ Hb].
    destruct (decide (i = "ASSIGN-001")) as [-> | Hne].
    - vm_compute in Hi. by simplify_eq.
    - unfold Sample.store in Hi. simpl in Hi.
      by rewrite lookup_singleton_ne in Hi. }
  destruct Hroom as (assignment & Hres & Hb & _); [by vm_compute | done |].
  exists assignment. by split.
Defined.

(** What [create_assignment] can do to the store: nothing, or add one row
    under a new id, for a pair no row binds, on a license with room. *)
Lemma create_assignment_store
    (s : Store) (uuid4 : string) (utcnow : Z)
    (license_key device_id assigned_by : string) :
  let s' :=
    (AssignmentService.create_assignment
       uuid4 utcnow license_key device_id assigned_by s).2 in
  s' = s
  ∨ ∃ license assignment,
      s' = with_assignment s uuid4 assignment
      ∧ assignments s !! uuid4 = None
      ∧ licenses s !! license_key = Some license
      ∧ usage s license_key < models.max_usage license
      ∧ binds license_key device_id assignment
      ∧ ∀ i a, assignments s !! i = Some a
               → ¬ binds license_key device_id a.
Proof.
  cbv zeta. unfold AssignmentService.create_assignment. run_db.
  destruct (licenses s !! license_key) as [license|] eqn:Hl; [| by left].
  destruct (devices s !! device_id) as [device|]; [| by left].
  destruct (first (by_pair license_key device_id (assignments s)))
    as [row|] eqn:Hfirst; [by left |].
  rewrite first_None, by_pair_empty in Hfirst.
  fold (usage s license_key).
  case_bool_decide as Hfull; [by left |].
  destruct (assignments s !! uuid4) eqn:Hfresh; [by left |].
  right. eexists license, _.
  split; [reflexivity |]. split; [done |]. split; [done |].
  split; [lia |]. by split.
Qed.

Lemma delete_assignment_store (s : Store) (assignment_id : string) :
  let s' := (AssignmentService.delete_assignment assignment_id s).2 in
  vendors s' = vendors s ∧ devices s' = devices s
  ∧ licenses s' = licenses s
  ∧ (assignments s' = assignments s
     ∨ assignments s' = delete assignment_id (assignments s)).
Proof.
  cbv zeta.
  unfold AssignmentService.delete_assignment,
    AssignmentService.get_assignment_by_id.
  run_db. destruct (assignments s !! assignment_id); simpl; auto.
Qed.

Lemma step_licenses (s : Store) (op : Op) : licenses (step s op) = licenses s.
Proof.
  destruct op as [uuid4 utcnow license_key device_id assigned_by | id]; simpl.
  - destruct (create_assignment_store
                s uuid4 utcnow license_key device_id assigned_by)
      as [-> | (? & ? & -> & _)]; done.
  - by destruct (delete_assignment_store s id) as (_ & _ & -> & _).
Qed.

Lemma step_usage (s : Store) (op : Op) (license_key : string)
    (license : models.License) :
  licenses s !! license_key = Some license →
  usage s license_key ≤ models.max_usage license →
  usage (step s op) license_key ≤ models.max_usage license.
Proof.
  intros Hl Hle.
  destruct op as [uuid4 utcnow license_key' device_id assigned_by | id]; simpl.
  - destruct (create_assignment_store
                s uuid4 utcnow license_key' device_id assigned_by)
      as [-> | (license' & a & -> & Hfresh & Hl' & Hroom & [Hk _] & _)];
      [done |].
    unfold usage. simpl. rewrite usage_insert by done.
    case_decide as Heq; [| done].
    assert (license_key' = license_key) as -> by congruence.
    assert (license' = license) as -> by congruence.
    unfold usage in Hroom. lia.
  - destruct (delete_assignment_store s id) as (_ & _ & _ & [Ha | Ha]);
      unfold usage; rewrite Ha; [done |].
    etrans; [apply usage_delete | done].
Qed.

Lemma step_unique_pairs (s : Store) (op : Op) :
  unique_pairs s → unique_pairs (step s op).
Proof.
  intros Huniq.
  destruct op as [uuid4 utcnow license_key device_id assigned_by | id]; simpl.
  - destruct (create_assignment_store
                s uuid4 utcnow license_key device_id assigned_by)
      as [-> | (license & a & -> & Hfresh & _ & _ & [Hk Hd] & Hnone)];
      [done |].
    intros i j x y Hi Hj Hlk Hdev. simpl in Hi, Hj.
    destruct (decide (i = uuid4)) as [-> | Hi'],
             (decide (j = uuid4)) as [-> | Hj']; [done | | |].
    + rewrite lookup_insert_eq in Hi. rewrite lookup_insert_ne in Hj by done.
      simplify_eq. destruct (Hnone j y Hj). split; congruence.
    + rewrite lookup_insert_eq in Hj. rewrite lookup_insert_ne in Hi by done.
      simplify_eq. destruct (Hnone i x Hi). split; congruence.
    + rewrite lookup_insert_ne in Hi, Hj by done. by eapply Huniq.
  - destruct (delete_assignment_store s id) as (_ & _ & _ & [Ha | Ha]);
      intros i j x y Hi Hj; rewrite Ha in Hi, Hj; [by apply Huniq |].
    apply lookup_delete_Some in Hi as [_ Hi].
    apply lookup_delete_Some in Hj as [_ Hj].
    by apply Huniq.
Qed.

(** C1. Capacity invariant: when the rows that reference a license number
    at most its [max_usage], they still do after any sequence of
    [create_assignment] and [delete_assignment] calls run one after the
    other, and the license itself is untouched. *)
Theorem capacity_invariant (ops : list Op) (s : Store)
    (license_key : string) (license : models.License) :
  licenses s !! license_key = Some license →
  usage s license_key ≤ models.max_usage license →
  licenses (run ops s) !! license_key = Some license
  ∧ usage (run ops s) license_key ≤ models.max_usage license.
Proof.
  revert s. induction ops as [|op ops IH]; intros s Hl Hle; [done |].
  unfold run. simpl. apply IH.
  - by rewrite step_licenses.
  - by apply step_usage.
Qed.

(** Capacity 2 with one row: three further requests keep the count at 2. *)
Lemma capacity_invariant_witness :
  usage (run [Assign "ASSIGN-002" 5 "LIC-1" "DEV-B" "user-123";
              Assign "ASSIGN-003" 6 "LIC-1" "DEV-B" "user-123";
              Release "missing";
              Assign "ASSIGN-004" 7 "LIC-1" "DEV-A" "user-123"]
             Sample.store) "LIC-1"
  ≤ 2.
Proof.
  refine (proj2 (capacity_invariant _ Sample.store "LIC-1"
                   (Sample.license 500 2) _ _)).
  - reflexivity.
  - by vm_compute.
Defined.

(** C3. Uniqueness invariant: when at most one row binds each
    (license, device) pair, the same holds after any sequence of
    [create_assignment] and [delete_assignment] calls run one after the
    other. *)
Theorem uniqueness_invariant (ops : list Op) (s : Store) :
  unique_pairs s → unique_pairs (run ops s).
Proof.
  revert s. induction ops as [|op ops IH]; intros s Huniq; [done |].
  unfold run. simpl. by apply IH, step_unique_pairs.
Qed.

(** From the one row of the sample store, repeating a request never
    doubles a pair. *)
Lemma uniqueness_invariant_witness :
  unique_pairs
    (run [Assign "ASSIGN-002" 5 "LIC-1" "DEV-B" "user-123";
          Assign "ASSIGN-003" 6 "LIC-1" "DEV-B" "user-123";
          Release "ASSIGN-001"]
         Sample.store).
Proof.
  apply (uniqueness_invariant _ Sample.store).
  intros i j a b Hi Hj _ _.
  unfold Sample.store in Hi, Hj. simpl in Hi, Hj.
  apply lookup_singleton_Some in Hi as [<- _].
  by apply lookup_singleton_Some in Hj as [<- _].
Defined.

(** ** Release *)

(** C5. [delete_assignment] on an id that no row carries raises a 404 on
    the assignment and leaves the store as it was; on the id of a row it
    removes that row and no other, leaves the other tables alone, and
    returns the license key and the device id of the removed row. *)
Theorem delete_assignment_releases (s : Store) (assignment_id : string) :
  let result := AssignmentService.delete_assignment assignment_id s in
  (assignments s !! assignment_id = None →
   result
   = (Raise (HTTPException 404
               ("Assignment " +:+ assignment_id +:+ " not found")), s))
  ∧ (∀ a, assignments s !! assignment_id = Some a →
     ∃ r,
       result.1 = Return r
       ∧ AssignmentService.dr_license_key r = models.license_key a
       ∧ AssignmentService.dr_device_id r = models.device_id a
       ∧ vendors result.2 = vendors s
       ∧ devices result.2 = devices s
       ∧ licenses result.2 = licenses s
       ∧ assignments result.2 !! assignment_id = None
       ∧ (∀ j, j ≠ assignment_id →
               assignments result.2 !! j = assignments s !! j)
       ∧ S (size (assignments result.2)) = size (assignments s)).
Proof.
  cbv zeta.
  unfold AssignmentService.delete_assignment,
    AssignmentService.get_assignment_by_id.
  split.
  - intros Hnone. run_db. by rewrite Hnone.
  - intros a Ha. run_db. rewrite Ha. simpl. eexists.
    split; [reflexivity |]. repeat split.
    + apply lookup_delete_eq.
    + intros j Hj. by apply lookup_delete_ne.
    + rewrite map_size_delete, Ha. simpl.
      assert (size (assignments s) ≠ 0%nat); [| lia].
      intros Hz. apply map_size_empty_iff in Hz.
      by rewrite Hz in Ha.
Qed.

(** Releasing the only row of the sample store empties the table. *)
Lemma delete_assignment_releases_witness :
  ∃ r,
    (AssignmentService.delete_assignment "ASSIGN-001" Sample.store).1
    = Return r
    ∧ AssignmentService.dr_license_key r = "LIC-1"
    ∧ AssignmentService.dr_device_id r = "DEV-A".
Proof.
  destruct (delete_assignment_releases Sample.store "ASSIGN-001")
    as [_ Hsome].
  destruct (Hsome (Sample.assignment "LIC-1" "DEV-A") eq_refl)
    as (r & Hr & Hk & Hd & _).
  exists r. by repeat split.
Defined.

(** ** Utilization *)




(** ** Expiring licenses *)





(** ** Compliance reports *)






Lemma elem_of_filter_rows {V : Type} (P : string * V → Prop)
    `{∀ x, Decision (P x)} (m : gmap string V) (k : string) :
  k ∈ (filter P (map_to_list m)).*1 ↔ ∃ v, m !! k = Some v ∧ P (k, v).
Proof.
  rewrite list_elem_of_fmap. split.
  - intros ([k' v] & -> & Hin). apply list_elem_of_filter in Hin as [HP Hin].
    apply elem_of_map_to_list in Hin. eauto.
  - intros (v & Hm & HP). exists (k, v). split; [done |].
    apply list_elem_of_filter. split; [done |]. by apply elem_of_map_to_list.
Qed.

Lemma NoDup_filter_rows {V : Type} (P : string * V → Prop)
    `{∀ x, Decision (P x)} (m : gmap string V) :
  NoDup (filter P (map_to_list m)).*1.
Proof.
  eapply sublist_NoDup; [apply (NoDup_fst_map_to_list m) |].
  apply fmap_sublist, sublist_filter.
Qed.







(** C9 fails on the code. A license with [max_usage = 0] and no
    assignment is counted as overused by [AlertService], whose test
    [usage >= max_usage * 0.9] has no guard for a capacity of 0, and is not
    by [ReportService], which reads a capacity of 0 as 0 percent. *)
Theorem compliance_reports_differ_on_zero_capacity :
  ∃ report alert,
    ReportService.generate_license_compliance_report
      1000 Sample.zero_capacity
    = (Return report, Sample.zero_capacity)
    ∧ AlertService.get_license_compliance_report 1000 Sample.zero_capacity
      = (Return alert, Sample.zero_capacity)
    ∧ ReportService.overused (ReportService.summary report) = 0
    ∧ AlertService.cr_overused_licenses alert = 1.
Proof. eexists _, _. by vm_compute. Qed.

(** ** License creation *)




(** ** Devices at risk *)




(** * Further properties of the services *)

(** ** Assign and release together *)

Lemma store_eta (s : Store) :
  {| vendors := vendors s; devices := devices s; licenses := licenses s;
     assignments := assignments s |} = s.
Proof. by destruct s. Qed.

(** What a call of [create_assignment] that returns has checked and
    done. *)
Lemma create_assignment_returns
    (s s' : Store) (uuid4 : string) (utcnow : Z)
    (license_key device_id assigned_by id : string)
    (a : models.Assignment) :
  AssignmentService.create_assignment
    uuid4 utcnow license_key device_id assigned_by s = (Return (id, a), s') →
  id = uuid4
  ∧ a = {| models.license_key := license_key;
           models.device_id := device_id;
           models.assigned_by := assigned_by;
           models.assigned_at := utcnow |}
  ∧ s' = with_assignment s uuid4 a
  ∧ assignments s !! uuid4 = None
  ∧ is_Some (licenses s !! license_key)
  ∧ is_Some (devices s !! device_id).
Proof.
  unfold AssignmentService.create_assignment. run_db.
  destruct (licenses s !! license_key) as [license|] eqn:Hl; [| done].
  destruct (devices s !! device_id) as [device|] eqn:Hd; [| done].
  destruct (first _); [done |].
  case_bool_decide; [done |].
  destruct (assignments s !! uuid4) eqn:Hfresh; [done |].
  intros [= <- <- <-]. by repeat split.
Qed.

(** What a call of [delete_assignment] that returns has done. *)
Lemma delete_assignment_returns (s s' : Store) (assignment_id : string)
    (r : AssignmentService.DeleteResult) :
  AssignmentService.delete_assignment assignment_id s = (Return r, s') →
  ∃ a,
    assignments s !! assignment_id = Some a
    ∧ AssignmentService.dr_license_key r = models.license_key a
    ∧ AssignmentService.dr_device_id r = models.device_id a
    ∧ s' = {| vendors := vendors s; devices := devices s;
              licenses := licenses s;
              assignments := delete assignment_id (assignments s) |}.
Proof.
  unfold AssignmentService.delete_assignment,
    AssignmentService.get_assignment_by_id. run_db.
  destruct (assignments s !! assignment_id) as [a|]; [| done].
  simpl. intros [= <- <-]. by exists a.
Qed.

(** X1. Releasing an assignment right after it was made undoes it: when
    [create_assignment] returns an id, [delete_assignment] on that id
    returns the license key and the device id of the request and leaves
    the store exactly as it was before the assignment. *)
Theorem assign_then_release_restores
    (s s' : Store) (uuid4 : string) (utcnow : Z)
    (license_key device_id assigned_by id : string)
    (a : models.Assignment) :
  AssignmentService.create_assignment
    uuid4 utcnow license_key device_id assigned_by s = (Return (id, a), s') →
  ∃ r,
    AssignmentService.delete_assignment id s' = (Return r, s)
    ∧ AssignmentService.dr_license_key r = license_key
    ∧ AssignmentService.dr_device_id r = device_id.
Proof.
  intros Hrun.
  apply create_assignment_returns in Hrun
    as (-> & -> & -> & Hfresh & _ & _).
  unfold AssignmentService.delete_assignment,
    AssignmentService.get_assignment_by_id. run_db.
  rewrite lookup_insert_eq. simpl. eexists. split.
  - f_equal. rewrite delete_insert_id by done. apply store_eta.
  - done.
Qed.

Lemma assign_then_release_restores_witness :
  ∃ r,
    AssignmentService.delete_assignment "ASSIGN-002"
      (with_assignment Sample.store "ASSIGN-002"
         (Sample.assignment "LIC-1" "DEV-B"))
    = (Return r, Sample.store)
    ∧ AssignmentService.dr_license_key r = "LIC-1"
    ∧ AssignmentService.dr_device_id r = "DEV-B".
Proof.
  apply (assign_then_release_restores
           Sample.store _ "ASSIGN-002" 0 "LIC-1" "DEV-B" "user-123"
           "ASSIGN-002" (Sample.assignment "LIC-1" "DEV-B")).
  by vm_compute.
Defined.

Lemma usage_delete_row (license_key i : string) (a : models.Assignment)
    (rows : gmap string models.Assignment) :
  rows !! i = Some a →
  count (by_license license_key (delete i rows))
  = if decide (models.license_key a = license_key)
    then count (by_license license_key rows) - 1
    else count (by_license license_key rows).
Proof.
  intros Ha. unfold count, by_license. rewrite map_filter_delete.
  rewrite map_size_delete. case_decide as Hk.
  - assert (filter (λ r, models.license_key r.2 = license_key) rows !! i
            = Some a) as Hin by by apply map_lookup_filter_Some.
    rewrite Hin.
    assert (size (filter (λ r, models.license_key r.2 = license_key) rows)
            ≠ 0%nat) as Hsize.
    { intros Hz. apply map_size_empty_iff in Hz. by rewrite Hz in Hin. }
    simpl. lia.
  - assert (filter (λ r, models.license_key r.2 = license_key) rows !! i
            = None) as Hout.
    { apply map_lookup_filter_None. right. intros y Hy. simpl. congruence. }
    by rewrite Hout.
Qed.

(** X2. Utilization moves by exactly one: a [create_assignment] that
    returns raises the usage count of its license by 1, a
    [delete_assignment] that returns lowers the usage count of the license
    it reports by 1, and the counts of all other licenses stay as they
    are. *)
Theorem usage_moves_by_one (s s' : Store) :
  (∀ uuid4 utcnow license_key device_id assigned_by row,
     AssignmentService.create_assignment
       uuid4 utcnow license_key device_id assigned_by s = (Return row, s') →
     ∀ k, usage s' k
          = if decide (license_key = k) then usage s k + 1 else usage s k)
  ∧ (∀ assignment_id r,
       AssignmentService.delete_assignment assignment_id s = (Return r, s') →
       ∀ k, usage s' k
            = if decide (AssignmentService.dr_license_key r = k)
              then usage s k - 1 else usage s k).
Proof.
  split.
  - intros uuid4 utcnow license_key device_id assigned_by [id a] Hrun k.
    apply create_assignment_returns in Hrun
      as (_ & -> & -> & Hfresh & _ & _).
    unfold usage. simpl. by rewrite usage_insert.
  - intros assignment_id r Hrun k.
    apply delete_assignment_returns in Hrun as (a & Ha & -> & _ & ->).
    unfold usage. simpl. by rewrite (usage_delete_row k _ a).
Qed.

Lemma usage_moves_by_one_witness :
  usage (with_assignment Sample.store "ASSIGN-002"
           (Sample.assignment "LIC-1" "DEV-B")) "LIC-1"
  = usage Sample.store "LIC-1" + 1.
Proof.
  refine (proj1 (usage_moves_by_one Sample.store _)
            "ASSIGN-002" 0 "LIC-1" "DEV-B" "user-123" _ _ "LIC-1").
  by vm_compute.
Defined.

(** X3. Assigning a pair twice: once [create_assignment] has returned for
    a license and a device, every further request for the same pair,
    whatever id, time and user it carries, raises the 400 "already
    assigned" and leaves the store alone. *)
Theorem assign_twice_is_refused
    (s s' : Store) (uuid4 uuid4' : string) (utcnow utcnow' : Z)
    (license_key device_id assigned_by assigned_by' : string)
    (row : string * models.Assignment) :
  AssignmentService.create_assignment
    uuid4 utcnow license_key device_id assigned_by s = (Return row, s') →
  AssignmentService.create_assignment
    uuid4' utcnow' license_key device_id assigned_by' s'
  = (Raise (HTTPException 400
              ("License " +:+ license_key
               +:+ " already assigned to device " +:+ device_id)), s').
Proof.
  destruct row as [id a]. intros Hrun.
  apply create_assignment_returns in Hrun
    as (-> & -> & -> & Hfresh & [license Hl] & [device Hd]).
  unfold AssignmentService.create_assignment, with_assignment. run_db.
  rewrite Hl. simpl. rewrite Hd. simpl.
  destruct (first _) as [row|] eqn:Hfirst; [done |].
  rewrite first_None, by_pair_empty in Hfirst.
  destruct (Hfirst uuid4 _ (lookup_insert_eq _ _ _)). by split.
Qed.

Lemma assign_twice_is_refused_witness :
  AssignmentService.create_assignment
    "ASSIGN-003" 9 "LIC-1" "DEV-B" "user-456"
    (with_assignment Sample.store "ASSIGN-002"
       (Sample.assignment "LIC-1" "DEV-B"))
  = (Raise (HTTPException 400
              "License LIC-1 already assigned to device DEV-B"),
     with_assignment Sample.store "ASSIGN-002"
       (Sample.assignment "LIC-1" "DEV-B")).
Proof.
  apply (assign_twice_is_refused
           Sample.store _ "ASSIGN-002" "ASSIGN-003" 0 9
           "LIC-1" "DEV-B" "user-123" "user-456"
           ("ASSIGN-002", Sample.assignment "LIC-1" "DEV-B")).
  by vm_compute.
Defined.

(** ** Utilization of every license, listings *)

(** X4. [get_all_utilizations] never raises the 404 of
    [get_license_utilization]: it returns one report per license of the
    store and no other, each with the [max_usage] of its license, the
    number of rows that reference it and their difference, and leaves the
    store alone. *)
Theorem get_all_utilizations_covers_every_license (s : Store) :
  ∃ utilizations,
    AssignmentService.get_all_utilizations s = (Return utilizations, s)
    ∧ NoDup (AssignmentService.u_license_key <$> utilizations)
    ∧ (∀ license_key,
         license_key ∈ (AssignmentService.u_license_key <$> utilizations)
         ↔ is_Some (licenses s !! license_key))
    ∧ Forall (λ u,
         ∃ license,
           licenses s !! AssignmentService.u_license_key u = Some license
           ∧ AssignmentService.u_max_usage u = models.max_usage license
           ∧ AssignmentService.u_current_usage u
             = usage s (AssignmentService.u_license_key u)
           ∧ AssignmentService.u_available u
             = models.max_usage license
               - usage s (AssignmentService.u_license_key u)) utilizations.
Proof.
  unfold AssignmentService.get_all_utilizations. run_db. unfold all.
  set (R := λ (row : string * models.License)
              (u : AssignmentService.Utilization),
         AssignmentService.u_license_key u = row.1
         ∧ AssignmentService.u_max_usage u = models.max_usage row.2
         ∧ AssignmentService.u_current_usage u = usage s row.1
         ∧ AssignmentService.u_available u
           = models.max_usage row.2 - usage s row.1).
  match goal with
  | |- context [for_each ?xs ?body ?l0 s] =>
      destruct (for_each_inv_on
                  (λ row, licenses s !! row.1 = Some row.2)
                  (λ visited us, Forall2 R visited us)
                  xs body l0 s) as (us & Hrun & HR)
  end.
  { apply Forall_forall. intros [k license] Hin.
    by apply elem_of_map_to_list in Hin. }
  { constructor. }
  { intros visited [k license] us Hl HP. simpl in Hl.
    unfold AssignmentService.get_license_utilization. run_db. rewrite Hl.
    eexists. split; [reflexivity |].
    apply Forall2_app; [done |]. by repeat constructor. }
  exists us. split; [done |].
  assert (AssignmentService.u_license_key <$> us
          = (map_to_list (licenses s)).*1) as Hkeys.
  { clear Hrun. induction HR as [|row u rows us' [Hk _] _ IH]; [done |].
    rewrite !fmap_cons. by f_equal. }
  split; [rewrite Hkeys; apply NoDup_fst_map_to_list |].
  split.
  - intros k. rewrite Hkeys, list_elem_of_fmap. split.
    + intros ([k' license] & -> & Hin).
      apply elem_of_map_to_list in Hin. by exists license.
    + intros [license Hl]. exists (k, license).
      split; [done |]. by apply elem_of_map_to_list.
  - eapply Forall_impl; [exact (Forall2_Forall_r _ _ _ HR) |].
    intros u ([k license] & Hin & Hk & Hm & Hc & Ha). simpl in *.
    apply elem_of_map_to_list in Hin.
    exists license. rewrite Hk. by repeat split.
Qed.

Lemma elem_of_rows {V : Type} (P : string * V → Prop)
    `{∀ x, Decision (P x)} (m : gmap string V) (i : string) (v : V) :
  (i, v) ∈ map_to_list (filter P m) ↔ m !! i = Some v ∧ P (i, v).
Proof. by rewrite elem_of_map_to_list, map_lookup_filter_Some. Qed.

(** X5. The listings by license and by device hold exactly the rows of
    [assignments] that reference the license, respectively the device,
    each once; the listing of a license has as many rows as the usage
    count that the utilization report and the capacity check use. *)
Theorem assignment_listings_are_exact (s : Store)
    (license_key device_id : string) :
  ∃ of_license of_device,
    AssignmentService.get_assignments_by_license license_key s
    = (Return of_license, s)
    ∧ AssignmentService.get_assignments_by_device device_id s
      = (Return of_device, s)
    ∧ NoDup of_license.*1 ∧ NoDup of_device.*1
    ∧ (∀ i a, (i, a) ∈ of_license
              ↔ assignments s !! i = Some a
                ∧ models.license_key a = license_key)
    ∧ (∀ i a, (i, a) ∈ of_device
              ↔ assignments s !! i = Some a
                ∧ models.device_id a = device_id)
    ∧ len of_license = usage s license_key.
Proof.
  eexists _, _. split; [reflexivity |]. split; [reflexivity |].
  unfold all, by_license, by_device.
  split; [apply NoDup_fst_map_to_list |].
  split; [apply NoDup_fst_map_to_list |].
  split; [intros i a; apply elem_of_rows |].
  split; [intros i a; apply elem_of_rows |].
  unfold len, usage, count, by_license. by rewrite length_map_to_list.
Qed.

(** ** Licenses: create, read, update, delete *)

(** The store a deleted license leaves. *)
Lemma delete_license_returns (s : Store) (license_key : string)
    (license : models.License) :
  licenses s !! license_key = Some license →
  LicenseService.delete_license license_key s
  = (Return ("License " +:+ license_key +:+ " deleted successfully"),
     {| vendors := vendors s;
        devices := devices s;
        licenses := delete license_key (licenses s);
        assignments :=
          filter (λ r, models.license_key r.2 ≠ license_key)
                 (assignments s) |}).
Proof.
  intros Hl.
  unfold LicenseService.delete_license, LicenseService.get_license_by_key,
    delete_license_row.
  run_db. by rewrite Hl.
Qed.

(** X6. [delete_license] on an unknown key raises a 404 and leaves the
    store alone. On a license of the store it removes the license together
    with every assignment that references it, and nothing else: the other
    licenses, the assignments of other licenses, the devices and the
    vendors stay; afterwards the key is free and its usage count is 0. *)
Theorem delete_license_cascades (s : Store) (license_key : string) :
  let result := LicenseService.delete_license license_key s in
  (licenses s !! license_key = None →
   result
   = (Raise (HTTPException 404 ("License " +:+ license_key +:+ " not found")),
      s))
  ∧ (is_Some (licenses s !! license_key) →
     result.1
     = Return ("License " +:+ license_key +:+ " deleted successfully")
     ∧ vendors result.2 = vendors s
     ∧ devices result.2 = devices s
     ∧ licenses result.2 !! license_key = None
     ∧ (∀ k, k ≠ license_key → licenses result.2 !! k = licenses s !! k)
     ∧ (∀ i a, assignments result.2 !! i = Some a
               ↔ assignments s !! i = Some a
                 ∧ models.license_key a ≠ license_key)
     ∧ usage result.2 license_key = 0
     ∧ (∀ k, k ≠ license_key → usage result.2 k = usage s k)).
Proof.
  cbv zeta. split.
  { intros Hl.
    unfold LicenseService.delete_license, LicenseService.get_license_by_key.
    run_db. by rewrite Hl. }
  intros [license Hl]. rewrite (delete_license_returns s _ license Hl).
  simpl. split; [done |]. split; [done |]. split; [done |].
  split; [apply lookup_delete_eq |].
  split; [intros k Hk; by apply lookup_delete_ne |].
  split; [intros i a; apply map_lookup_filter_Some |].
  split.
  - unfold usage, count, by_license. simpl.
    rewrite map_filter_filter.
    rewrite (proj2 (map_empty_filter _ _)); [done |].
    intros i a _. simpl. tauto.
  - intros k Hk. unfold usage, count, by_license. simpl.
    rewrite map_filter_filter. do 2 f_equal.
    apply map_filter_ext. intros i a _. simpl. split; [tauto |].
    intros Ha. split; [done | congruence].
Qed.

Lemma delete_license_cascades_witness :
  (LicenseService.delete_license "LIC-1" Sample.store).1
  = Return "License LIC-1 deleted successfully"
  ∧ assignments (LicenseService.delete_license "LIC-1" Sample.store).2
    !! "ASSIGN-001" = None.
Proof.
  destruct (delete_license_cascades Sample.store "LIC-1") as [_ Hsome].
  destruct Hsome as (Hret & _ & _ & _ & _ & Hrows & _); [by eexists |].
  split; [done |].
  destruct (assignments _ !! "ASSIGN-001") as [a|] eqn:Ha; [| done].
  apply Hrows in Ha as [Ha Hne]. vm_compute in Ha.
  injection Ha as <-. by destruct Hne.
Defined.

(** What a call of [create_license] that returns has checked and done. *)
Lemma create_license_returns (s s' : Store)
    (license_data : server.LicenseCreate) (license_key : string)
    (license : models.License) :
  LicenseService.create_license license_data s
  = (Return (license_key, license), s') →
  license_key = server.license_key license_data
  ∧ license = server.to_row license_data
  ∧ s' = with_license s license_key license
  ∧ licenses s !! license_key = None
  ∧ is_Some (vendors s !! server.vendor_id license_data)
  ∧ server.valid_from license_data < server.valid_to license_data.
Proof.
  unfold LicenseService.create_license. run_db.
  destruct (licenses s !! server.license_key license_data) eqn:Hl; [done |].
  destruct (vendors s !! server.vendor_id license_data) eqn:Hv; [| done].
  case_bool_decide as Hdates; [done |]. simpl. rewrite Hl.
  intros [= <- <- <-]. repeat split; [done | by eexists | lia].
Qed.

(** X7. A created license can be read back and its key is taken: when
    [create_license] returns, [get_license_by_key] on the key of the
    request returns the row just built from the request, with its
    [max_usage] and dates, and every further [create_license] with that
    key raises the 400 "already exists" and leaves the store alone. *)
Theorem create_license_then_read (s s' : Store)
    (license_data : server.LicenseCreate) (row : string * models.License) :
  LicenseService.create_license license_data s = (Return row, s') →
  row = (server.license_key license_data, server.to_row license_data)
  ∧ LicenseService.get_license_by_key (server.license_key license_data) s'
    = (Return (server.to_row license_data), s')
  ∧ (∀ again,
       server.license_key again = server.license_key license_data →
       LicenseService.create_license again s'
       = (Raise (HTTPException 400
                   ("License key " +:+ server.license_key license_data
                    +:+ " already exists")), s')).
Proof.
  destruct row as [k license]. intros Hrun.
  apply create_license_returns in Hrun as (-> & -> & -> & _).
  split; [done |]. split.
  - unfold LicenseService.get_license_by_key, with_license. run_db.
    by rewrite lookup_insert_eq.
  - intros again Hkey. unfold LicenseService.create_license, with_license.
    run_db. by rewrite Hkey, lookup_insert_eq.
Qed.

Lemma create_license_then_read_witness :
  LicenseService.get_license_by_key "LIC-9"
    (with_license Sample.store "LIC-9" (server.to_row (Sample.request 4)))
  = (Return (server.to_row (Sample.request 4)),
     with_license Sample.store "LIC-9" (server.to_row (Sample.request 4))).
Proof.
  refine (proj1 (proj2 (create_license_then_read
                          Sample.store _ (Sample.request 4) _ _))).
  by vm_compute.
Defined.




(** ** Referential integrity *)

Lemma create_license_store (s : Store) (license_data : server.LicenseCreate) :
  let s' := (LicenseService.create_license license_data s).2 in
  s' = s
  ∨ s' = with_license s (server.license_key license_data)
                        (server.to_row license_data).
Proof.
  cbv zeta. unfold LicenseService.create_license. run_db.
  destruct (licenses s !! server.license_key license_data) eqn:Hl;
    [by left |].
  destruct (vendors s !! server.vendor_id license_data); [| by left].
  case_bool_decide; [by left |]. simpl. rewrite Hl. by right.
Qed.

Lemma update_license_store (s : Store) (license_key : string)
    (update_data : LicenseUpdate.t) :
  let s' := (LicenseService.update_license license_key update_data s).2 in
  s' = s
  ∨ ∃ updated,
      is_Some (licenses s !! license_key)
      ∧ s' = with_license s license_key updated.
Proof.
  cbv zeta.
  unfold LicenseService.update_license, LicenseService.get_license_by_key,
    update_license_row.
  run_db. destruct (licenses s !! license_key) as [license|] eqn:Hl;
    [| by left].
  simpl. destruct (LicenseUpdate.vendor_id update_data) as [vendor_id|].
  - case_bool_decide; simpl.
    + destruct (vendors s !! vendor_id); [| by left].
      right. by eexists.
    + right. by eexists.
  - right. by eexists.
Qed.

Lemma delete_license_store (s : Store) (license_key : string) :
  let s' := (LicenseService.delete_license license_key s).2 in
  s' = s
  ∨ s' = {| vendors := vendors s;
            devices := devices s;
            licenses := delete license_key (licenses s);
            assignments :=
              filter (λ r, models.license_key r.2 ≠ license_key)
                     (assignments s) |}.
Proof.
  cbv zeta.
  destruct (licenses s !! license_key) as [license|] eqn:Hl.
  - right. by rewrite (delete_license_returns s _ license Hl).
  - left.
    unfold LicenseService.delete_license, LicenseService.get_license_by_key.
    run_db. by rewrite Hl.
Qed.

Lemma exec_licenses_present (s : Store) (c : Command) :
  licenses_present s → licenses_present (exec s c).
Proof.
  intros Hpresent.
  destruct c as [[uuid4 utcnow k d by_ | id] | data | k upd | k]; simpl.
  - destruct (create_assignment_store s uuid4 utcnow k d by_)
      as [-> | (license & a & -> & Hfresh & Hl & _ & [Hk _] & _)]; [done |].
    intros i x Hi. simpl in *.
    destruct (decide (i = uuid4)) as [-> | Hne].
    + rewrite lookup_insert_eq in Hi. injection Hi as <-.
      rewrite Hk. by eexists.
    + rewrite lookup_insert_ne in Hi by done. by eapply Hpresent.
  - destruct (delete_assignment_store s id) as (_ & _ & Hl & [Ha | Ha]);
      intros i x Hi; rewrite Ha in Hi; rewrite Hl.
    + by eapply Hpresent.
    + apply lookup_delete_Some in Hi as [_ Hi]. by eapply Hpresent.
  - destruct (create_license_store s data) as [-> | ->]; [done |].
    intros i x Hi. simpl in *.
    destruct (Hpresent i x Hi) as [license Hl].
    destruct (decide (server.license_key data = models.license_key x))
      as [<- | Hne].
    + rewrite lookup_insert_eq. by eexists.
    + rewrite lookup_insert_ne by done. by eexists.
  - destruct (update_license_store s k upd)
      as [-> | (updated & Hk & ->)]; [done |].
    intros i x Hi. simpl in *.
    destruct (decide (k = models.license_key x)) as [<- | Hne].
    + rewrite lookup_insert_eq. by eexists.
    + rewrite lookup_insert_ne by done. by eapply Hpresent.
  - destruct (delete_license_store s k) as [-> | ->]; [done |].
    intros i x Hi. simpl in *.
    apply map_lookup_filter_Some in Hi as [Hi Hne]. simpl in Hne.
    rewrite lookup_delete_ne by done. by eapply Hpresent.
Qed.

(** X9. No dangling assignment: when every assignment references a
    license of the store, this still holds after any sequence of
    [create_assignment], [delete_assignment], [create_license],
    [update_license] and [delete_license] calls, returning or raising;
    deleting a license takes its assignments with it and an assignment
    is only made for a license that exists. *)
Theorem licenses_present_invariant (cs : list Command) (s : Store) :
  licenses_present s → licenses_present (exec_all cs s).
Proof.
  revert s. induction cs as [|c cs IH]; intros s Hpresent; [done |].
  unfold exec_all. simpl. by apply IH, exec_licenses_present.
Qed.

(** Deleting LIC-1 of the sample store after one more assignment. *)
Lemma licenses_present_invariant_witness :
  licenses_present
    (exec_all [Allocation (Assign "ASSIGN-002" 5 "LIC-1" "DEV-B" "user-123");
               DeleteLicense "LIC-1";
               CreateLicense (Sample.request 3)]
              Sample.store).
Proof.
  apply (licenses_present_invariant _ Sample.store).
  intros i a Hi. unfold Sample.store in Hi. simpl in Hi.
  apply lookup_singleton_Some in Hi as [_ <-]. by eexists.
Defined.

(** ** Devices at risk: the entries *)

Lemma len_app {A : Type} (xs ys : list A) : len (xs ++ ys) = len xs + len ys.
Proof. unfold len. rewrite length_app. lia. Qed.

Lemma risk_counts_inv (s : Store) (today threshold_date : Z)
    (rows : list (string * models.Assignment))
    (body : string * models.Assignment → AlertService.RiskCounts
            → Db AlertService.RiskCounts)
    (c : AlertService.RiskCounts) (s' : Store) :
  (∀ row c, body row c s = (risk_step s today threshold_date row c, s)) →
  for_each rows body
    {| AlertService.rk_expired_count := 0;
       AlertService.rk_expiring_soon_count := 0;
       AlertService.rk_expired_licenses := [];
       AlertService.rk_expiring_licenses := [] |} s = (Return c, s') →
  s' = s
  ∧ AlertService.rk_expired_count c
    = len (filter (λ row, expired_row s today row = true) rows)
  ∧ AlertService.rk_expiring_soon_count c
    = len (filter (λ row, expiring_row s today threshold_date row = true)
                  rows)
  ∧ len (AlertService.rk_expired_licenses c)
    = AlertService.rk_expired_count c
  ∧ len (AlertService.rk_expiring_licenses c)
    = AlertService.rk_expiring_soon_count c
  ∧ Forall (λ d, 0 ≤ AlertService.ed_days_left d
                 ≤ threshold_date - today)
           (AlertService.rk_expiring_licenses c).
Proof.
  intros Hbody Hrun.
  apply (for_each_inv_returns
           (λ visited c,
              AlertService.rk_expired_count c
              = len (filter (λ row, expired_row s today row = true) visited)
              ∧ AlertService.rk_expiring_soon_count c
                = len (filter
                         (λ row, expiring_row s today threshold_date row
                                 = true) visited)
              ∧ len (AlertService.rk_expired_licenses c)
                = AlertService.rk_expired_count c
              ∧ len (AlertService.rk_expiring_licenses c)
                = AlertService.rk_expiring_soon_count c
              ∧ Forall (λ d, 0 ≤ AlertService.ed_days_left d
                             ≤ threshold_date - today)
                       (AlertService.rk_expiring_licenses c)))
    in Hrun; [done | by repeat split |].
  intros visited row c1 c2 s2 (He & Hs & Hle & Hls & Hall).
  rewrite Hbody. unfold risk_step.
  destruct (licenses s !! models.license_key row.2) as [license|] eqn:Hl;
    [| done].
  assert (expired_row s today row
          = bool_decide (models.valid_to license < today)) as Hx.
  { unfold expired_row. by rewrite Hl. }
  assert (expiring_row s today threshold_date row
          = bool_decide (today ≤ models.valid_to license ≤ threshold_date))
    as Hg.
  { unfold expiring_row. by rewrite Hl. }
  rewrite !filter_app, !filter_cons, !filter_nil, !len_app, Hx, Hg.
  repeat case_bool_decide; intros [= <- <-]; (split; [done |]); simpl;
    repeat case_decide; try done; try lia;
    unfold len in *; rewrite ?length_app; simpl;
    repeat split; try lia; try done;
    apply Forall_app; split; [done |]; repeat constructor; simpl; lia.
Qed.

Lemma risk_body_step (s : Store) (today days_threshold : Z)
    (row : string * models.Assignment) (c : AlertService.RiskCounts) :
  (let '(_, assignment) := row in
   λ c : AlertService.RiskCounts,
     (license <- query (λ s, licenses s !! models.license_key assignment) ;;
      match license with
      | None => raise AttributeError
      | Some license =>
          if bool_decide (models.valid_to license < today) then
            ret {| AlertService.rk_expired_count :=
                     AlertService.rk_expired_count c + 1;
                   AlertService.rk_expiring_soon_count :=
                     AlertService.rk_expiring_soon_count c;
                   AlertService.rk_expired_licenses :=
                     AlertService.rk_expired_licenses c
                     ++ [models.software_name license];
                   AlertService.rk_expiring_licenses :=
                     AlertService.rk_expiring_licenses c |}
          else if bool_decide
                    (models.valid_to license ≤ today + days_threshold)
          then
            ret {| AlertService.rk_expired_count :=
                     AlertService.rk_expired_count c;
                   AlertService.rk_expiring_soon_count :=
                     AlertService.rk_expiring_soon_count c + 1;
                   AlertService.rk_expired_licenses :=
                     AlertService.rk_expired_licenses c;
                   AlertService.rk_expiring_licenses :=
                     AlertService.rk_expiring_licenses c
                     ++ [ {| AlertService.ed_name :=
                               models.software_name license;
                             AlertService.ed_days_left :=
                               models.valid_to license - today |} ] |}
          else ret c
      end)%db) c s
  = (risk_step s today (today + days_threshold) row c, s).
Proof.
  destruct row as [i a]. run_db. unfold risk_step. simpl.
  destruct (licenses s !! models.license_key a); [| done].
  by repeat case_bool_decide.
Qed.

(** The list [get_devices_at_risk] sorts: one entry per active device at
    risk, in the order of the device rows. *)
Lemma devices_at_risk_unsorted (s s' : Store) (today days_threshold : Z)
    (risks : list AlertService.DeviceRisk) :
  AlertService.get_devices_at_risk today days_threshold s
  = (Return risks, s') →
  s' = s
  ∧ ∃ at_risk,
      risks = sorted AlertService.risk_key_leb risk_key at_risk
      ∧ Forall2 (risk_of_row s today days_threshold)
          (filter (at_risk_device s today days_threshold)
             (map_to_list
                (filter (λ r, models.status r.2 = models.ACTIVE)
                        (devices s))))
          at_risk.
Proof.
  unfold AlertService.get_devices_at_risk. run_db. unfold all.
  set (active := filter _ (devices s)).
  match goal with
  | |- context [for_each ?xs ?body ?l0 s] =>
      set (outer := body); set (at_risk0 := l0)
  end.
  assert (∀ row at_risk l s1,
            outer row at_risk s = (Return l, s1) →
            s1 = s
            ∧ ((¬ at_risk_device s today days_threshold row ∧ l = at_risk)
               ∨ (at_risk_device s today days_threshold row
                  ∧ ∃ r, l = at_risk ++ [r]
                         ∧ risk_of_row s today days_threshold row r)))
    as Houter.
  { intros [device_id device] at_risk l s1. subst outer. cbv beta iota.
    match goal with
    | |- context [for_each ?xs ?body ?l0 s] =>
        pose proof (λ c s2, risk_counts_inv s today (today + days_threshold)
                      xs body c s2) as Hinner
    end.
    destruct (for_each _ _ _ s) as [[counts | e] s2] eqn:Hrun; [| done].
    destruct (Hinner counts s2) as (-> & He & Hs & Hle & Hls & Hall);
      [| done |].
    { intros row c. apply (risk_body_step s today days_threshold row c). }
    fold (expired_of s today device_id) in He.
    fold (expiring_of s today (today + days_threshold) device_id) in Hs.
    unfold at_risk_device. simpl.
    destruct (_ || _) eqn:Hor; intros [= <- <-]; (split; [done |]).
    - right. apply orb_true_iff in Hor.
      rewrite !bool_decide_eq_true in Hor. split; [lia |].
      eexists. split; [reflexivity |].
      unfold risk_of_row. simpl.
      do 4 (split; [done |]). split; [done |]. split; [done |].
      split; [done |]. split; [done |]. split; [| done].
      eapply Forall_impl; [exact Hall |]. intros d Hd. simpl in Hd. lia.
    - left. apply orb_false_iff in Hor.
      rewrite !bool_decide_eq_false in Hor. split; [lia | done]. }
  intros Hrun.
  destruct (for_each _ outer at_risk0 s) as [[at_risk | e] s1] eqn:Hloop;
    [| done].
  apply (for_each_inv_returns
           (λ visited l,
              Forall2 (risk_of_row s today days_threshold)
                (filter (at_risk_device s today days_threshold) visited) l))
    in Hloop as [-> Hrows].
  - injection Hrun as <- <-. split; [done |]. by exists at_risk.
  - constructor.
  - intros visited row l l' s2 Hl Hstep.
    destruct (Houter row l l' s2 Hstep) as [-> Hcases]. split; [done |].
    rewrite filter_app, filter_cons, filter_nil.
    destruct Hcases as [[Hno ->] | (Hyes & r & -> & Hr)].
    + rewrite decide_False by done. by rewrite app_nil_r.
    + rewrite decide_True by done. apply Forall2_app; [done |].
      constructor; [done | constructor].
Qed.

Lemma len_filter_pos {A : Type} (P : A → Prop) `{∀ x, Decision (P x)}
    (xs : list A) :
  0 < len (filter P xs) ↔ ∃ x, x ∈ xs ∧ P x.
Proof.
  unfold len. split.
  - intros Hpos. destruct (filter P xs) as [|x rest] eqn:Hf; [simpl in *; lia |].
    assert (x ∈ filter P xs) as Hx by (rewrite Hf; left).
    apply list_elem_of_filter in Hx as [HP Hin]. by exists x.
  - intros (x & Hin & HP).
    assert (x ∈ filter P xs) as Hx by by apply list_elem_of_filter.
    destruct (filter P xs); [by apply elem_of_nil in Hx | simpl; lia].
Qed.

Lemma active_row (s : Store) (row : string * models.Device) :
  row ∈ map_to_list
          (filter (λ r, models.status r.2 = models.ACTIVE) (devices s))
  ↔ devices s !! row.1 = Some row.2 ∧ models.status row.2 = models.ACTIVE.
Proof. destruct row as [k device]. apply elem_of_rows. Qed.

Lemma risk_entries_ok (s s' : Store) (today days_threshold : Z)
    (risks : list AlertService.DeviceRisk) :
  AlertService.get_devices_at_risk today days_threshold s
  = (Return risks, s') →
  Forall (risk_entry_ok s today days_threshold) risks.
Proof.
  intros Hrun.
  apply devices_at_risk_unsorted in Hrun as (_ & at_risk & -> & Hrows).
  rewrite sorted_Permutation.
  eapply Forall_impl; [exact (Forall2_Forall_r _ _ _ Hrows) |].
  intros r (row & Hin & Hid & Ht & Hloc & Hip & He & Hs & Hle & Hls
            & Hall & Hsev).
  apply list_elem_of_filter in Hin as [Hrisk Hin].
  apply active_row in Hin as [Hd Hactive].
  exists row.2. rewrite Hid.
  do 5 (split; [done |]). split; [done |].
  split; [done |]. do 3 (split; [done |]).
  split; [| done].
  unfold at_risk_device in Hrisk. rewrite He, Hs.
  assert (0 ≤ expired_of s today row.1) by (unfold expired_of, len; lia).
  assert (0 ≤ expiring_of s today (today + days_threshold) row.1)
    by (unfold expiring_of, len; lia).
  lia.
Qed.

(** X11. What an entry of the devices-at-risk list holds: it is for an
    ACTIVE device of the store and carries its type, location and address;
    [expired_licenses] is the number of the device's assignments whose
    license has [valid_to < today] and [expiring_soon] the number of those
    with [today <= valid_to <= today + days_threshold]; the two name lists
    have these lengths; every [days_left] lies between 0 and
    [days_threshold]; at least one of the two counts is positive; and the
    severity is CRITICAL exactly when [expired_licenses] is positive, else
    WARNING. *)
Theorem devices_at_risk_entries (s s' : Store) (today days_threshold : Z)
    (risks : list AlertService.DeviceRisk) :
  AlertService.get_devices_at_risk today days_threshold s
  = (Return risks, s') →
  Forall (risk_entry_ok s today days_threshold) risks.
Proof. apply risk_entries_ok. Qed.

Lemma devices_at_risk_entries_witness :
  ∃ risks,
    AlertService.get_devices_at_risk 1000 15 Sample.maintenance
    = (Return risks, Sample.maintenance)
    ∧ Forall (risk_entry_ok Sample.maintenance 1000 15) risks.
Proof.
  eexists. split; [by vm_compute |].
  apply (devices_at_risk_entries Sample.maintenance Sample.maintenance).
  by vm_compute.
Defined.

Lemma expired_of_pos (s : Store) (today : Z) (device_id : string) :
  0 < expired_of s today device_id
  ↔ ∃ i a license,
      assignments s !! i = Some a ∧ models.device_id a = device_id
      ∧ licenses s !! models.license_key a = Some license
      ∧ models.valid_to license < today.
Proof.
  unfold expired_of. rewrite len_filter_pos. split.
  - intros ([i a] & Hin & Hx). apply elem_of_rows in Hin as [Ha Hd].
    unfold expired_row in Hx. simpl in *.
    destruct (licenses s !! models.license_key a) as [license|] eqn:Hl;
      [| done].
    apply bool_decide_eq_true in Hx. by exists i, a, license.
  - intros (i & a & license & Ha & Hd & Hl & Hx). exists (i, a). split.
    + by apply elem_of_rows.
    + unfold expired_row. simpl. rewrite Hl. by apply bool_decide_eq_true.
Qed.

Lemma expiring_of_pos (s : Store) (today threshold_date : Z)
    (device_id : string) :
  0 < expiring_of s today threshold_date device_id
  ↔ ∃ i a license,
      assignments s !! i = Some a ∧ models.device_id a = device_id
      ∧ licenses s !! models.license_key a = Some license
      ∧ today ≤ models.valid_to license ≤ threshold_date.
Proof.
  unfold expiring_of. rewrite len_filter_pos. split.
  - intros ([i a] & Hin & Hx). apply elem_of_rows in Hin as [Ha Hd].
    unfold expiring_row in Hx. simpl in *.
    destruct (licenses s !! models.license_key a) as [license|] eqn:Hl;
      [| done].
    apply bool_decide_eq_true in Hx. by exists i, a, license.
  - intros (i & a & license & Ha & Hd & Hl & Hx). exists (i, a). split.
    + by apply elem_of_rows.
    + unfold expiring_row. simpl. rewrite Hl. by apply bool_decide_eq_true.
Qed.

(** X12. Which devices are listed: when [get_devices_at_risk] returns, no
    device is listed twice, and a device id is listed exactly when it is
    the id of an ACTIVE device that has an assignment whose license has
    [valid_to < today] or [valid_to <= today + days_threshold]. *)
Theorem devices_at_risk_lists_exactly (s s' : Store)
    (today days_threshold : Z) (risks : list AlertService.DeviceRisk) :
  AlertService.get_devices_at_risk today days_threshold s
  = (Return risks, s') →
  NoDup (AlertService.r_device_id <$> risks)
  ∧ ∀ device_id,
      device_id ∈ (AlertService.r_device_id <$> risks)
      ↔ ∃ device i a license,
          devices s !! device_id = Some device
          ∧ models.status device = models.ACTIVE
          ∧ assignments s !! i = Some a
          ∧ models.device_id a = device_id
          ∧ licenses s !! models.license_key a = Some license
          ∧ (models.valid_to license < today
             ∨ models.valid_to license ≤ today + days_threshold).
Proof.
  intros Hrun.
  apply devices_at_risk_unsorted in Hrun as (_ & at_risk & -> & Hrows).
  set (active := filter (λ r, models.status r.2 = models.ACTIVE) (devices s))
    in *.
  assert (AlertService.r_device_id <$> at_risk
          = (filter (at_risk_device s today days_threshold)
               (map_to_list active)).*1) as Hids.
  { induction Hrows as [|row r rows rs [Hid _] _ IH]; [done |].
    rewrite !fmap_cons. by f_equal. }
  rewrite sorted_Permutation, Hids. split; [apply NoDup_filter_rows |].
  intros device_id. rewrite sorted_Permutation, Hids, elem_of_filter_rows.
  subst active.
  unfold at_risk_device. simpl. split.
  - intros (device & Hd & Hrisk).
    apply map_lookup_filter_Some in Hd as [Hd Hactive]. simpl in Hactive.
    destruct Hrisk as [Hx | Hg].
    + apply expired_of_pos in Hx as (i & a & license & Ha & Hdev & Hl & Hv).
      exists device, i, a, license. repeat split; try done. by left.
    + apply expiring_of_pos in Hg as (i & a & license & Ha & Hdev & Hl & Hv).
      exists device, i, a, license. repeat split; try done. right. lia.
  - intros (device & i & a & license & Hd & Hactive & Ha & Hdev & Hl & Hv).
    exists device. split; [by apply map_lookup_filter_Some |].
    destruct (decide (models.valid_to license < today)) as [Hx | Hx].
    + left. apply expired_of_pos. by exists i, a, license.
    + right. apply expiring_of_pos. exists i, a, license.
      repeat split; try done; lia.
Qed.

Lemma devices_at_risk_lists_exactly_witness :
  ∃ risks,
    AlertService.get_devices_at_risk 1000 15 Sample.maintenance
    = (Return risks, Sample.maintenance)
    ∧ "DEV-A" ∈ (AlertService.r_device_id <$> risks)
    ∧ "DEV-M" ∉ (AlertService.r_device_id <$> risks).
Proof.
  eexists. split; [by vm_compute |].
  destruct (devices_at_risk_lists_exactly
              Sample.maintenance Sample.maintenance 1000 15 _
              ltac:(by vm_compute)) as [_ Hlisted].
  split.
  - apply Hlisted.
    exists (Sample.device models.ACTIVE), "ASSIGN-001",
      (Sample.assignment "LIC-1" "DEV-A"), (Sample.license 990 5).
    repeat split; try reflexivity. left. by vm_compute.
  - intros Hin. apply Hlisted in Hin
      as (device & i & a & license & Hd & Hactive & _).
    vm_compute in Hd. by simplify_eq.
Defined.

Lemma risk_key_leb_total (a b : bool * Z) :
  AlertService.risk_key_leb a b = true ∨ AlertService.risk_key_leb b a = true.
Proof.
  unfold AlertService.risk_key_leb.
  destruct a as [[] x], b as [[] y]; simpl; rewrite ?Z.leb_le; auto; lia.
Qed.

Lemma risk_key_leb_trans (a b c : bool * Z) :
  AlertService.risk_key_leb a b = true →
  AlertService.risk_key_leb b c = true →
  AlertService.risk_key_leb a c = true.
Proof.
  unfold AlertService.risk_key_leb.
  destruct a as [[] x], b as [[] y], c as [[] z]; simpl;
    rewrite ?Z.leb_le; try done; lia.
Qed.

Lemma StronglySorted_impl_Forall {A : Type} (P : A → Prop)
    (R1 R2 : A → A → Prop) (xs : list A) :
  Forall P xs →
  (∀ a b, P a → P b → R1 a b → R2 a b) →
  StronglySorted R1 xs → StronglySorted R2 xs.
Proof.
  intros HP Himpl. induction 1 as [|x xs Hxs IH Hx]; [constructor |].
  apply Forall_cons in HP as [Hpx HP]. constructor; [by apply IH |].
  apply Forall_forall. intros y Hy.
  apply Himpl; [done | | ].
  - by eapply Forall_forall in HP.
  - by eapply Forall_forall in Hx.
Qed.

(** X13. The order of the devices-at-risk list: an entry never has fewer
    expired licenses than a later one, and no WARNING entry comes before a
    CRITICAL one. *)
Theorem devices_at_risk_order (s s' : Store) (today days_threshold : Z)
    (risks : list AlertService.DeviceRisk) :
  AlertService.get_devices_at_risk today days_threshold s
  = (Return risks, s') →
  StronglySorted
    (λ a b,
       AlertService.r_expired_licenses b ≤ AlertService.r_expired_licenses a
       ∧ (AlertService.r_severity b = "CRITICAL"
          → AlertService.r_severity a = "CRITICAL")) risks.
Proof.
  intros Hrun.
  pose proof (risk_entries_ok _ _ _ _ _ Hrun) as Hentries.
  apply devices_at_risk_unsorted in Hrun as (_ & at_risk & -> & _).
  eapply (StronglySorted_impl_Forall _ _ _ _ Hentries);
    [| apply (sorted_StronglySorted AlertService.risk_key_leb risk_key);
       [apply risk_key_leb_total | apply risk_key_leb_trans]].
  intros a b (da & _ & _ & _ & _ & _ & Hae & _ & _ & _ & _ & _ & Hasev)
             (db & _ & _ & _ & _ & _ & Hbe & _ & _ & _ & _ & _ & Hbsev).
  assert (0 ≤ AlertService.r_expired_licenses a)
    by (rewrite Hae; unfold expired_of, len; lia).
  assert (0 ≤ AlertService.r_expired_licenses b)
    by (rewrite Hbe; unfold expired_of, len; lia).
  unfold risk_key, AlertService.risk_key_leb. simpl.
  rewrite Hasev, Hbsev.
  repeat case_bool_decide; simpl; rewrite ?Z.leb_le; try done;
    intros Hle; split; try lia; done.
Qed.

Lemma devices_at_risk_order_witness :
  ∃ risks,
    AlertService.get_devices_at_risk 1000 15 Sample.maintenance
    = (Return risks, Sample.maintenance)
    ∧ StronglySorted
        (λ a b,
           AlertService.r_expired_licenses b
           ≤ AlertService.r_expired_licenses a
           ∧ (AlertService.r_severity b = "CRITICAL"
              → AlertService.r_severity a = "CRITICAL")) risks.
Proof.
  eexists. split; [by vm_compute |].
  apply (devices_at_risk_order Sample.maintenance Sample.maintenance 1000 15).
  by vm_compute.
Defined.

(** ** Overused licenses *)

(** The list [get_overused_licenses] sorts: one entry per license at or
    above the threshold, in the order of the license rows. *)
Lemma overused_unsorted (s : Store) (threshold_percent : Z) :
  ∃ overused,
    AlertService.get_overused_licenses threshold_percent s
    = (Return
         (sorted (λ a b, Qle_bool b a) AlertService.ou_usage_percentage
                 overused), s)
    ∧ Forall2 (overused_of_row s)
        (filter (λ row, Qge_bool (usage_percentage s row)
                                 (inject_Z threshold_percent) = true)
                (map_to_list (licenses s)))
        overused.
Proof.
  unfold AlertService.get_overused_licenses. run_db. unfold all.
  match goal with
  | |- context [for_each ?xs ?body ?l0 s] =>
      destruct (for_each_inv
                  (λ visited l,
                     Forall2 (overused_of_row s)
                       (filter (λ row, Qge_bool (usage_percentage s row)
                                         (inject_Z threshold_percent) = true)
                               visited) l)
                  xs body l0 s) as (overused & Hrun & Hrows)
  end.
  { constructor. }
  { intros visited [license_key license] l Hl. run_db.
    rewrite filter_app, filter_cons, filter_nil.
    unfold usage_percentage at 2. unfold usage. simpl.
    destruct (Qge_bool _ (inject_Z threshold_percent)) eqn:Hover;
      (eexists; split; [reflexivity |]).
    - rewrite decide_True by done. apply Forall2_app; [done |].
      constructor; [| constructor]. by repeat split.
    - rewrite decide_False by congruence. by rewrite app_nil_r. }
  exists overused. by rewrite Hrun.
Qed.

Lemma percent_at_least (threshold u m : Z) :
  0 < m →
  Qge_bool (percent_of u m) (inject_Z threshold) = true
  ↔ threshold * m ≤ 100 * u.
Proof.
  intros Hm. unfold Qge_bool, percent_of. rewrite Qle_bool_iff.
  destruct m as [|m|m]; try lia.
  unfold Qle, Qdiv, Qmult, Qinv, inject_Z. simpl. lia.
Qed.

Lemma overused_row_iff (s : Store) (threshold : Z)
    (row : string * models.License) :
  Qge_bool (usage_percentage s row) (inject_Z threshold) = true
  ↔ (0 < models.max_usage row.2
     ∧ threshold * models.max_usage row.2 ≤ 100 * usage s row.1)
    ∨ (models.max_usage row.2 ≤ 0 ∧ threshold ≤ 0).
Proof.
  unfold usage_percentage. case_bool_decide as Hm.
  - rewrite percent_at_least by done. lia.
  - unfold Qge_bool. rewrite Qle_bool_iff.
    unfold Qle, inject_Z. simpl. lia.
Qed.





Lemma percent_below (threshold u m : Z) :
  0 < m →
  Qge_bool (percent_of u m) (inject_Z threshold) = false
  ↔ 100 * u < threshold * m.
Proof.
  intros Hm. rewrite <- not_true_iff_false, percent_at_least by done. lia.
Qed.

(** The severity tiers of [_get_usage_severity] on [u / m * 100], in
    integers. *)
Lemma usage_severity_tiers (u m : Z) :
  0 < m →
  let severity := AlertService._get_usage_severity (percent_of u m) in
  (severity = "CRITICAL" ↔ 95 * m ≤ 100 * u)
  ∧ (severity = "HIGH" ↔ 90 * m ≤ 100 * u < 95 * m)
  ∧ (severity = "WARNING" ↔ 75 * m ≤ 100 * u < 90 * m)
  ∧ (severity = "NORMAL" ↔ 100 * u < 75 * m).
Proof.
  intros Hm. cbv zeta. unfold AlertService._get_usage_severity.
  change 95%Q with (inject_Z 95). change 90%Q with (inject_Z 90).
  change 75%Q with (inject_Z 75).
  destruct (Qge_bool _ (inject_Z 95)) eqn:H95;
    [apply percent_at_least in H95; [| done]
    | apply percent_below in H95; [| done]].
  { repeat split; intros; try done; lia. }
  destruct (Qge_bool _ (inject_Z 90)) eqn:H90;
    [apply percent_at_least in H90; [| done]
    | apply percent_below in H90; [| done]].
  { repeat split; intros; try done; lia. }
  destruct (Qge_bool _ (inject_Z 75)) eqn:H75;
    [apply percent_at_least in H75; [| done]
    | apply percent_below in H75; [| done]].
  { repeat split; intros; try done; lia. }
  repeat split; intros; try done; lia.
Qed.

(** X15. Severity of the overused licenses: with a threshold of at least
    75, the default, every listed license has a positive [max_usage] and
    at least one assignment, and its severity is CRITICAL when
    [100 * usage >= 95 * max_usage], HIGH from [90 * max_usage] on and
    WARNING otherwise, never NORMAL. *)
Theorem get_overused_licenses_severity (s : Store) (threshold_percent : Z) :
  75 ≤ threshold_percent →
  ∃ alerts,
    AlertService.get_overused_licenses threshold_percent s
    = (Return alerts, s)
    ∧ Forall (λ o,
         let u := AlertService.ou_current_usage o in
         let m := AlertService.ou_max_usage o in
         0 < m ∧ 0 < u
         ∧ (AlertService.ou_severity o = "CRITICAL" ↔ 95 * m ≤ 100 * u)
         ∧ (AlertService.ou_severity o = "HIGH"
            ↔ 90 * m ≤ 100 * u < 95 * m)
         ∧ (AlertService.ou_severity o = "WARNING" ↔ 100 * u < 90 * m)
         ∧ AlertService.ou_severity o ≠ "NORMAL") alerts.
Proof.
  intros Hthreshold.
  destruct (overused_unsorted s threshold_percent)
    as (overused & Hrun & Hrows).
  eexists. split; [exact Hrun |].
  rewrite sorted_Permutation.
  eapply Forall_impl; [exact (Forall2_Forall_r _ _ _ Hrows) |].
  intros o ([k license] & Hin & _ & _ & _ & Hu & Hm & _ & _ & Hsev).
  simpl in *. apply list_elem_of_filter in Hin as [Hover _].
  apply overused_row_iff in Hover as [[Hpos Hover] | [_ Hneg]]; [| lia].
  simpl in *. rewrite Hu, Hm, Hsev. unfold usage_percentage. simpl.
  rewrite bool_decide_eq_true_2 by done.
  destruct (usage_severity_tiers (usage s k) (models.max_usage license) Hpos)
    as (Hc & Hh & Hw & Hn).
  assert (75 * models.max_usage license ≤ 100 * usage s k) by nia.
  split; [done |]. split; [lia |]. split; [done |]. split; [done |].
  split; [rewrite Hw; lia |]. rewrite Hn. lia.
Qed.

Lemma get_overused_licenses_severity_witness :
  ∃ alerts,
    AlertService.get_overused_licenses 75 Sample.busy
    = (Return alerts, Sample.busy)
    ∧ Forall (λ o, AlertService.ou_severity o ≠ "NORMAL") alerts.
Proof.
  destruct (get_overused_licenses_severity Sample.busy 75)
    as (alerts & Hrun & Hall); [lia |].
  exists alerts. split; [done |].
  eapply Forall_impl; [exact Hall |]. by intros o (_ & _ & _ & _ & _ & Hn).
Defined.

(** ** Dashboard summary *)













(** ** The two listings of expiring licenses *)


(** ** Uniqueness under license commands *)

(** X17. At most one assignment per (license, device) pair also survives
    the license commands: it is kept by any sequence of
    [create_assignment], [delete_assignment], [create_license],
    [update_license] and [delete_license] calls, returning or raising. *)
Theorem unique_pairs_under_commands (cs : list Command) (s : Store) :
  unique_pairs s → unique_pairs (exec_all cs s).
Proof.
  revert s. induction cs as [|c cs IH]; intros s Huniq; [done |].
  unfold exec_all. simpl. apply IH.
  destruct c as [op | data | k upd | k]; simpl.
  - by apply step_unique_pairs.
  - by destruct (create_license_store s data) as [-> | ->].
  - by destruct (update_license_store s k upd) as [-> | (updated & _ & ->)].
  - destruct (delete_license_store s k) as [-> | ->]; [done |].
    intros i j a b Hi Hj. simpl in Hi, Hj.
    apply map_lookup_filter_Some in Hi as [Hi _].
    apply map_lookup_filter_Some in Hj as [Hj _].
    by apply Huniq.
Qed.

Lemma unique_pairs_under_commands_witness :
  unique_pairs
    (exec_all [Allocation (Assign "ASSIGN-002" 5 "LIC-1" "DEV-B" "user-123");
               UpdateLicense "LIC-1" no_update;
               Allocation (Assign "ASSIGN-003" 6 "LIC-1" "DEV-B" "user-123");
               DeleteLicense "LIC-1"]
              Sample.store).
Proof.
  apply (unique_pairs_under_commands _ Sample.store).
  intros i j a b Hi Hj _ _.
  unfold Sample.store in Hi, Hj. simpl in Hi, Hj.
  apply lookup_singleton_Some in Hi as [<- _].
  by apply lookup_singleton_Some in Hj as [<- _].
Defined.

(** ** Vendor analysis *)





(** ** Device inventory *)












(** ** Address validation

    [validate_ip_address] of the server, for any tables of digits and of
    white space that agree with Python's on what the proofs use. *)

Section ip_address.

Variable is_decimal : Z → bool.
Variable decimal_value : Z → Z.
Variable is_space : Z → bool.
Hypothesis tables : python_tables is_decimal decimal_value is_space.


Lemma dot_no_digit : is_decimal 46 = false.
Proof. destruct tables as (_ & H & _). by apply H. Qed.

Lemma line_feed_no_digit : is_decimal 10 = false.
Proof. destruct tables as (_ & H & _). by apply H. Qed.

Lemma digits_1_3_inv text digits rest :
  server.digits_1_3 is_decimal text = Some (digits, rest) →
  text = digits ++ rest
  ∧ (1 ≤ length digits ≤ 3)%nat
  ∧ Forall (λ c, is_decimal c = true) digits.
Proof.
  unfold server.digits_1_3. intros H.
  destruct text as [|c1 [|c2 [|c3 rest3]]]; [done | | |];
    repeat (let E := fresh "E" in
            destruct (is_decimal _) eqn:E in H; [| try done]);
    injection H as <- <-; simpl;
    (split; [done |]); (split; [lia |]); repeat constructor; done.
Qed.

Lemma digits_1_3_run digits rest :
  (1 ≤ length digits ≤ 3)%nat →
  Forall (λ c, is_decimal c = true) digits →
  match rest with c :: _ => is_decimal c = false | [] => True end →
  server.digits_1_3 is_decimal (digits ++ rest) = Some (digits, rest).
Proof.
  intros Hlen Hdigits Hrest.
  destruct digits as [|c1 [|c2 [|c3 [|c4 ds]]]]; simpl in Hlen; try lia;
    repeat match goal with
           | H : Forall _ (_ :: _) |- _ =>
               apply Forall_cons in H as [? H]
           end;
    simpl; destruct rest as [|c rest];
    repeat match goal with
           | H : is_decimal _ = _ |- _ => rewrite H; clear H
           end; done.
Qed.

Lemma digits_dot_inv text rest :
  server.digits_dot is_decimal text = Some rest →
  ∃ digits, text = digits ++ 46 :: rest
    ∧ (1 ≤ length digits ≤ 3)%nat ∧ Forall (λ c, is_decimal c = true) digits.
Proof.
  unfold server.digits_dot. intros H.
  destruct (server.digits_1_3 _ _) as [[digits [|c rest']]|] eqn:E;
    [done | | done].
  case_bool_decide as Hc; [| done]. injection H as <-. subst c.
  apply digits_1_3_inv in E as (-> & Hlen & Hdigits). by exists digits.
Qed.

Lemma digits_dot_run digits rest :
  (1 ≤ length digits ≤ 3)%nat →
  Forall (λ c, is_decimal c = true) digits →
  server.digits_dot is_decimal (digits ++ 46 :: rest) = Some rest.
Proof.
  intros Hlen Hdigits. unfold server.digits_dot.
  rewrite digits_1_3_run; [| done | done | apply dot_no_digit].
  by rewrite bool_decide_eq_true_2.
Qed.


Lemma re_match_quad ip :
  server.re_match is_decimal ip = true
  ↔ ∃ o1 o2 o3 o4 tail,
      ip = quad o1 o2 o3 o4 tail
      ∧ (tail = [] ∨ tail = [10])
      ∧ Forall (digit_run is_decimal) [o1; o2; o3; o4].
Proof.
  unfold server.re_match, quad. split.
  - intros H.
    destruct (server.digits_dot _ ip) as [rest1|] eqn:E1; [| done].
    destruct (server.digits_dot _ rest1) as [rest2|] eqn:E2; [| done].
    destruct (server.digits_dot _ rest2) as [rest3|] eqn:E3; [| done].
    destruct (server.digits_1_3 _ rest3) as [[o4 tail]|] eqn:E4; [| done].
    apply digits_dot_inv in E1 as (o1 & -> & H1).
    apply digits_dot_inv in E2 as (o2 & -> & H2).
    apply digits_dot_inv in E3 as (o3 & -> & H3).
    apply digits_1_3_inv in E4 as (-> & H4).
    exists o1, o2, o3, o4, tail. split; [done |]. split.
    + destruct tail as [|c [|c' tail]]; [by left | | done].
      apply bool_decide_eq_true in H as ->. by right.
    + repeat (constructor; [done |]). constructor.
  - intros (o1 & o2 & o3 & o4 & tail & -> & Htail & Hruns).
    apply Forall_cons in Hruns as [[? ?] Hruns].
    apply Forall_cons in Hruns as [[? ?] Hruns].
    apply Forall_cons in Hruns as [[? ?] Hruns].
    apply Forall_cons in Hruns as [[? ?] _].
    rewrite !digits_dot_run by done.
    destruct Htail as [-> | ->].
    + by rewrite digits_1_3_run.
    + rewrite digits_1_3_run; [done | done | done | apply line_feed_no_digit].
Qed.

Lemma split_run digits rest :
  Forall (λ c, is_decimal c = true) digits →
  server.split 46 (digits ++ 46 :: rest) = digits :: server.split 46 rest.
Proof.
  induction 1 as [|c digits Hc _ IH]; simpl.
  - done.
  - rewrite bool_decide_eq_false_2.
    + by rewrite IH.
    + intros ->. by rewrite dot_no_digit in Hc.
Qed.

Lemma split_last digits tail :
  Forall (λ c, is_decimal c = true) digits → tail = [] ∨ tail = [10] →
  server.split 46 (digits ++ tail) = [digits ++ tail].
Proof.
  intros Hdigits Htail.
  induction Hdigits as [|c digits Hc _ IH]; simpl.
  - by destruct Htail as [-> | ->].
  - rewrite bool_decide_eq_false_2.
    + by rewrite IH.
    + intros ->. by rewrite dot_no_digit in Hc.
Qed.

Lemma lstrip_digit c text :
  is_decimal c = true →
  server.lstrip is_space (c :: text) = c :: text.
Proof.
  intros Hc. simpl. destruct tables as (_ & _ & _ & H & _).
  by rewrite (H c Hc).
Qed.

Lemma strip_run digits tail :
  digits ≠ [] → Forall (λ c, is_decimal c = true) digits → tail = [] ∨ tail = [10] →
  server.strip is_space (digits ++ tail) = digits.
Proof.
  intros Hne Hdigits Htail. unfold server.strip.
  destruct digits as [|c digits]; [done |].
  pose proof Hdigits as Hall.
  apply Forall_cons in Hdigits as [Hc _].
  change ((c :: digits) ++ tail) with (c :: (digits ++ tail)).
  rewrite lstrip_digit by done.
  change (c :: (digits ++ tail)) with ((c :: digits) ++ tail).
  rewrite reverse_app.
  assert (server.lstrip is_space (reverse tail ++ reverse (c :: digits))
          = reverse (c :: digits)) as ->.
  { assert (server.lstrip is_space (reverse (c :: digits))
            = reverse (c :: digits)) as Hrev.
    { apply Forall_reverse in Hall.
      destruct (reverse (c :: digits)) as [|d ds]; [done |].
      apply Forall_cons in Hall as [Hd _]. by apply lstrip_digit. }
    destruct Htail as [-> | ->]; [done |].
    change (reverse [10]) with [10]. simpl.
    destruct tables as (_ & _ & _ & _ & ->). exact Hrev. }
  by rewrite reverse_involutive.
Qed.

Lemma int_digits_run value digits :
  Forall (λ c, is_decimal c = true) digits →
  server.int_digits is_decimal decimal_value value digits
  = Some (foldl (λ value c, value * 10 + decimal_value c) value digits).
Proof.
  intros H. revert value.
  induction H as [|c digits Hc _ IH]; intros value; simpl; [done |].
  by rewrite Hc, IH.
Qed.

Lemma int_run digits tail :
  digits ≠ [] → Forall (λ c, is_decimal c = true) digits → tail = [] ∨ tail = [10] →
  server.int is_decimal decimal_value is_space (digits ++ tail)
  = Some (number decimal_value digits).
Proof.
  intros Hne Hdigits Htail. unfold server.int.
  rewrite strip_run by done.
  destruct digits as [|c digits]; [done |].
  apply Forall_cons in Hdigits as [Hc Hdigits].
  destruct tables as (_ & Hlow & _).
  rewrite !bool_decide_eq_false_2.
  - rewrite Hc, int_digits_run by done. unfold number.
    cbn [fmap option_fmap option_map foldl].
    replace (0 * 10 + decimal_value c) with (decimal_value c) by lia.
    f_equal. apply Z.mul_1_l.
  - intros ->. by rewrite Hlow in Hc.
  - intros ->. by rewrite Hlow in Hc.
Qed.

Lemma number_nonneg digits :
  Forall (λ c, is_decimal c = true) digits → 0 ≤ number decimal_value digits.
Proof.
  unfold number. intros H.
  assert (∀ value, 0 ≤ value →
    0 ≤ foldl (λ value c, value * 10 + decimal_value c) value digits)
    as Hall; [| by apply Hall].
  induction H as [|c digits Hc _ IH]; intros value Hvalue; simpl; [done |].
  apply IH. destruct tables as (_ & _ & Hrange & _).
  specialize (Hrange c Hc). lia.
Qed.

Lemma validate_quad o1 o2 o3 o4 tail :
  Forall (digit_run is_decimal) [o1; o2; o3; o4] → tail = [] ∨ tail = [10] →
  server.validate_ip_address is_decimal decimal_value is_space
    (quad o1 o2 o3 o4 tail)
  = Some (bool_decide
      (Forall (λ o, number decimal_value o ≤ 255) [o1; o2; o3; o4])).
Proof.
  intros Hruns Htail. unfold server.validate_ip_address.
  assert (server.re_match is_decimal (quad o1 o2 o3 o4 tail) = true) as ->.
  { apply re_match_quad. by exists o1, o2, o3, o4, tail. }
  simpl negb. cbv iota.
  apply Forall_cons in Hruns as [[L1 D1] Hruns].
  apply Forall_cons in Hruns as [[L2 D2] Hruns].
  apply Forall_cons in Hruns as [[L3 D3] Hruns].
  apply Forall_cons in Hruns as [[L4 D4] _].
  unfold quad. rewrite !split_run, split_last by done.
  assert (∀ o : list Z, (1 ≤ length o)%nat → o ≠ []) as Hne.
  { intros [|? ?] ?; [simpl in *; lia | done]. }
  pose proof (number_nonneg o1 D1). pose proof (number_nonneg o2 D2).
  pose proof (number_nonneg o3 D3). pose proof (number_nonneg o4 D4).
  pose proof (int_run o1 [] (Hne _ (proj1 L1)) D1 (or_introl eq_refl)) as I1.
  pose proof (int_run o2 [] (Hne _ (proj1 L2)) D2 (or_introl eq_refl)) as I2.
  pose proof (int_run o3 [] (Hne _ (proj1 L3)) D3 (or_introl eq_refl)) as I3.
  pose proof (int_run o4 tail (Hne _ (proj1 L4)) D4 Htail) as I4.
  rewrite app_nil_r in I1, I2, I3.
  unfold server.octets_in_range. rewrite I1.
  rewrite (bool_decide_eq_false_2 (number _ o1 < 0)) by lia.
  case_bool_decide as B1; simpl.
  { f_equal. symmetry. apply bool_decide_eq_false_2.
    intros F. apply Forall_cons in F as [? _]. lia. }
  rewrite I2.
  rewrite (bool_decide_eq_false_2 (number _ o2 < 0)) by lia.
  case_bool_decide as B2; simpl.
  { f_equal. symmetry. apply bool_decide_eq_false_2.
    intros F. apply Forall_cons in F as [_ F].
    apply Forall_cons in F as [? _]. lia. }
  rewrite I3.
  rewrite (bool_decide_eq_false_2 (number _ o3 < 0)) by lia.
  case_bool_decide as B3; simpl.
  { f_equal. symmetry. apply bool_decide_eq_false_2.
    intros F. apply Forall_cons in F as [_ F].
    apply Forall_cons in F as [_ F].
    apply Forall_cons in F as [? _]. lia. }
  rewrite I4.
  rewrite (bool_decide_eq_false_2 (number _ o4 < 0)) by lia.
  case_bool_decide as B4; simpl.
  { f_equal. symmetry. apply bool_decide_eq_false_2.
    intros F. apply Forall_cons in F as [_ F].
    apply Forall_cons in F as [_ F].
    apply Forall_cons in F as [_ F].
    apply Forall_cons in F as [? _]. lia. }
  f_equal. symmetry. apply bool_decide_eq_true_2.
  repeat constructor; lia.
Qed.

(** X20. [validate_ip_address] always answers, and it answers [True]
    exactly for four runs of one to three decimal digits, each denoting at
    most 255, with dots between them and nothing or one line feed after
    them. *)
Theorem validate_ip_address_accepts_exactly ip :
  (server.validate_ip_address is_decimal decimal_value is_space ip
   = Some true
   ∨ server.validate_ip_address is_decimal decimal_value is_space ip
     = Some false)
  ∧ (server.validate_ip_address is_decimal decimal_value is_space ip
     = Some true
     ↔ ∃ o1 o2 o3 o4 tail,
         ip = quad o1 o2 o3 o4 tail
         ∧ (tail = [] ∨ tail = [10])
         ∧ Forall (octet is_decimal decimal_value) [o1; o2; o3; o4]).
Proof.
  destruct (server.re_match is_decimal ip) eqn:Hmatch.
  - apply re_match_quad in Hmatch
      as (o1 & o2 & o3 & o4 & tail & -> & Htail & Hruns).
    pose proof (validate_quad o1 o2 o3 o4 tail Hruns Htail) as Hrun.
    split; [| split].
    + rewrite Hrun. case_bool_decide; auto.
    + rewrite Hrun. intros H. injection H as H.
      apply bool_decide_eq_true in H.
      exists o1, o2, o3, o4, tail. split; [done |]. split; [done |].
      unfold octet.
      repeat match goal with
             | H : Forall _ (_ :: _) |- _ =>
                 apply Forall_cons in H as [? H]
             end.
      repeat (constructor; [by split |]). constructor.
    + intros (p1 & p2 & p3 & p4 & tail' & Hip & Htail' & Hoctets).
      rewrite Hip.
      assert (Forall (digit_run is_decimal) [p1; p2; p3; p4]) as Hruns'.
      { eapply Forall_impl; [exact Hoctets |]. by intros o [? ?]. }
      rewrite validate_quad by done. f_equal.
      apply bool_decide_eq_true_2.
      eapply Forall_impl; [exact Hoctets |]. by intros o [? ?].
  - assert (server.validate_ip_address is_decimal decimal_value is_space ip
            = Some false) as Hno.
    { unfold server.validate_ip_address. by rewrite Hmatch. }
    rewrite Hno. split; [auto |]. split; [done |].
    intros (o1 & o2 & o3 & o4 & tail & Hip & Htail & Hoctets).
    assert (server.re_match is_decimal ip = true) as Hyes; [| congruence].
    apply re_match_quad. exists o1, o2, o3, o4, tail.
    split; [done |]. split; [done |].
    eapply Forall_impl; [exact Hoctets |]. by intros o [? ?].
Qed.

Lemma code_points_octet n :
  0 ≤ n ≤ 255 →
  (1 ≤ length (code_points (str n)) ≤ 3)%nat
  ∧ Forall (λ c, 48 ≤ c ≤ 57) (code_points (str n))
  ∧ number ascii_value (code_points (str n)) = n.
Proof.
  intros Hn.
  assert (Forall (λ n,
      (1 ≤ length (code_points (str n)) ≤ 3)%nat
      ∧ Forall (λ c, 48 ≤ c ≤ 57) (code_points (str n))
      ∧ number ascii_value (code_points (str n)) = n) (seqZ 0 256)) as Hall.
  { apply (bool_decide_eq_true_1 _). by vm_compute. }
  rewrite Forall_forall in Hall. apply Hall, elem_of_seqZ. lia.
Qed.

Lemma number_ascii digits :
  Forall (λ c, 48 ≤ c ≤ 57) digits →
  Forall (λ c, is_decimal c = true) digits
  ∧ number decimal_value digits = number ascii_value digits.
Proof.
  intros H. destruct tables as (Hascii & _). split.
  - eapply Forall_impl; [exact H |]. intros c Hc. by apply Hascii.
  - unfold number. generalize 0.
    induction H as [|c digits Hc _ IH]; intros value; simpl; [done |].
    rewrite IH. destruct (Hascii c Hc) as [_ ->]. done.
Qed.

Lemma octet_of_number n :
  0 ≤ n ≤ 255 → octet is_decimal decimal_value (code_points (str n)).
Proof.
  intros Hn. destruct (code_points_octet n Hn) as (Hlen & Hdigits & Hnum).
  destruct (number_ascii _ Hdigits) as [Hall Heq].
  split; [by split |]. rewrite Heq, Hnum. lia.
Qed.

(** X21. The text [a.b.c.d] of four numbers from 0 to 255, written as
    [str] writes them, is accepted, and so is that text followed by one
    line feed. *)
Theorem validate_ip_address_accepts_dotted a b c d :
  0 ≤ a ≤ 255 → 0 ≤ b ≤ 255 → 0 ≤ c ≤ 255 → 0 ≤ d ≤ 255 →
  server.validate_ip_address is_decimal decimal_value is_space
    (dotted a b c d) = Some true
  ∧ server.validate_ip_address is_decimal decimal_value is_space
      (dotted a b c d ++ [10]) = Some true.
Proof.
  intros Ha Hb Hc Hd.
  pose proof (octet_of_number a Ha) as [Ra Na].
  pose proof (octet_of_number b Hb) as [Rb Nb].
  pose proof (octet_of_number c Hc) as [Rc Nc].
  pose proof (octet_of_number d Hd) as [Rd Nd].
  assert (dotted a b c d ++ [10]
          = quad (code_points (str a)) (code_points (str b))
              (code_points (str c)) (code_points (str d)) [10]) as ->.
  { unfold dotted, quad. rewrite app_nil_r.
    by rewrite <- !app_assoc, <- !app_comm_cons, <- !app_assoc,
      <- !app_comm_cons, <- !app_assoc, <- !app_comm_cons. }
  unfold dotted.
  rewrite !validate_quad; auto; [| by repeat (constructor; [done |])..].
  split; f_equal; apply bool_decide_eq_true_2;
    repeat (constructor; [done |]); constructor.
Qed.

End ip_address.

Lemma ascii_tables : python_tables ascii_decimal ascii_value ascii_space.
Proof.
  unfold python_tables, ascii_decimal, ascii_value, ascii_space.
  split; [| split; [| split; [| split]]].
  - intros c Hc. by rewrite bool_decide_eq_true_2.
  - intros c Hc. apply bool_decide_eq_false_2. lia.
  - intros c Hc. apply bool_decide_eq_true in Hc. lia.
  - intros c Hc. apply bool_decide_eq_true in Hc.
    apply bool_decide_eq_false_2. lia.
  - done.
Qed.

Lemma validate_ip_address_accepts_exactly_witness :
  ∃ o1 o2 o3 o4 tail,
    code_points "10.0.0.7" ++ [10] = quad o1 o2 o3 o4 tail
    ∧ (tail = [] ∨ tail = [10])
    ∧ Forall (octet ascii_decimal ascii_value) [o1; o2; o3; o4].
Proof.
  apply (validate_ip_address_accepts_exactly
           ascii_decimal ascii_value ascii_space ascii_tables).
  by vm_compute.
Defined.

Lemma validate_ip_address_accepts_dotted_witness :
  server.validate_ip_address ascii_decimal ascii_value ascii_space
    (dotted 192 168 1 10) = Some true
  ∧ server.validate_ip_address ascii_decimal ascii_value ascii_space
      (dotted 192 168 1 10 ++ [10]) = Some true.
Proof.
  apply (validate_ip_address_accepts_dotted
           ascii_decimal ascii_value ascii_space ascii_tables); lia.
Defined.

(** ** The routes of assignments and licenses *)

Lemma role_check_assign (role : models.UserRole) :
  bool_decide (models.UserRole_value role
               ∉ [api_router.ADMIN; api_router.ENGINEER])
  = bool_decide (role = models.AUDITOR).
Proof. by destruct role; vm_compute. Qed.

Lemma role_check_admin (role : models.UserRole) :
  bool_decide (models.UserRole_value role ≠ api_router.ADMIN)
  = bool_decide (role ≠ models.ADMIN).
Proof. by destruct role; vm_compute. Qed.

Lemma database_eta (d : Database) :
  {| store := store d; audit_logs := audit_logs d |} = d.
Proof. by destruct d. Qed.

Lemma log_action_cases (uuid4 : string) (utcnow : Z)
    (user_id entity_type entity_id action : string)
    (details : option string) (d : Database) :
  ∃ e,
    models.user_id e = user_id ∧ models.timestamp e = utcnow
    ∧ models.entity_type e = entity_type ∧ models.action e = action
    ∧ AuditService.log_action uuid4 utcnow user_id entity_type entity_id
        action details d
      = (Return tt,
         {| store := store d;
            audit_logs :=
              match audit_logs d !! uuid4 with
              | Some _ => audit_logs d
              | None => <[uuid4 := e]> (audit_logs d)
              end |}).
Proof.
  eexists {| models.user_id := user_id |}.
  do 4 (split; [reflexivity |]).
  unfold AuditService.log_action.
  destruct (audit_logs d !! uuid4); [| done].
  by rewrite database_eta.
Qed.

Lemma create_assignment_raises
    (s s' : Store) (uuid4 : string) (utcnow : Z)
    (license_key device_id assigned_by : string) (e : Exception) :
  AssignmentService.create_assignment
    uuid4 utcnow license_key device_id assigned_by s = (Raise e, s') →
  s' = s.
Proof.
  unfold AssignmentService.create_assignment, bind, query, ret, raise,
    add_assignment. simpl.
  destruct (licenses s !! license_key); [| by intros [= _ <-]].
  destruct (devices s !! device_id); [| by intros [= _ <-]].
  destruct (first _); [by intros [= _ <-] |].
  case_bool_decide; [by intros [= _ <-] |].
  destruct (assignments s !! uuid4); [by intros [= _ <-] | done].
Qed.

Lemma delete_assignment_raises (s s' : Store) (assignment_id : string)
    (e : Exception) :
  AssignmentService.delete_assignment assignment_id s = (Raise e, s') →
  s' = s.
Proof.
  unfold AssignmentService.delete_assignment,
    AssignmentService.get_assignment_by_id, bind, query, ret, raise,
    delete_assignment_row. simpl.
  destruct (assignments s !! assignment_id); [done | by intros [= _ <-]].
Qed.

Ltac run_route :=
  unfold route_bind, route_ret, route_raise, on_store, query; simpl.

(** What a call does: it raises and leaves the database as it was, or it
    returns for a user whose role the request is open to, leaves the store
    of the request and has logged the call unless the log id was taken. *)
Lemma handle_cases (c : Call) (d : Database) :
  (∃ e, handle c d = (Some e, d))
  ∨ ∃ entry d',
      handle c d = (None, d')
      ∧ entry_of c entry
      ∧ store d' = stored (request c) (store d)
      ∧ audit_logs d'
        = match audit_logs d !! log_id c with
          | Some _ => audit_logs d
          | None => <[log_id c := entry]> (audit_logs d)
          end.
Proof.
  destruct c as [[user_id user] log_id log_time r].
  unfold handle, entry_of, role_of, raised. simpl.
  destruct r as [uuid4 utcnow data | assignment_id | data | key data | key];
    simpl.
  - unfold api_router.create_assignment, api_router.role_value. simpl.
    destruct (models.role user) as [role|]; run_route;
      [| left; by eexists].
    rewrite role_check_assign.
    case_bool_decide as Hrole; simpl; [left; by eexists |].
    destruct (AssignmentService.create_assignment _ _ _ _ _ (store d))
      as [[[id a]|e] s'] eqn:Hrun; simpl.
    + destruct (log_action_cases log_id log_time user_id "ASSIGNMENT" id
        "ASSIGN"
        (Some ("Assigned license " +:+ models.license_key a
               +:+ " to device " +:+ models.device_id a))
        {| store := s'; audit_logs := audit_logs d |})
        as (e & Hu & Ht & Hy & Ha & ->).
      simpl. right. eexists e, _. split; [reflexivity |]. simpl.
      split; [| done].
      split; [done |]. split; [done |]. split; [by rewrite Hy, Ha |].
      exists role. split; [done |]. destruct role; auto. done.
    + left. exists e.
      apply create_assignment_raises in Hrun as ->.
      by rewrite database_eta.
  - unfold api_router.delete_assignment, api_router.role_value. simpl.
    destruct (models.role user) as [role|]; run_route;
      [| left; by eexists].
    rewrite role_check_assign.
    case_bool_decide as Hrole; simpl; [left; by eexists |].
    destruct (AssignmentService.delete_assignment _ (store d))
      as [[result|e] s'] eqn:Hrun; simpl.
    + pose proof Hrun as Hret.
      apply delete_assignment_returns in Hret as (a & Ha & _ & _ & _).
      rewrite Ha.
      destruct (log_action_cases log_id log_time user_id "ASSIGNMENT"
        assignment_id "UNASSIGN"
        (Some ("Unassigned " +:+ ("License " +:+ models.license_key a
               +:+ " from device " +:+ models.device_id a)))
        {| store := s'; audit_logs := audit_logs d |})
        as (e & Hu & Ht & Hy & Hact & ->).
      simpl. right. eexists e, _. split; [reflexivity |]. simpl.
      split; [| done].
      split; [done |]. split; [done |]. split; [by rewrite Hy, Hact |].
      exists role. split; [done |]. destruct role; auto. done.
    + left. exists e.
      apply delete_assignment_raises in Hrun as ->.
      destruct (assignments (store d) !! assignment_id);
        by rewrite database_eta.
  - unfold api_router.create_license, api_router.role_value. simpl.
    destruct (models.role user) as [role|]; run_route;
      [| left; by eexists].
    rewrite role_check_admin.
    case_bool_decide as Hrole; simpl; [left; by eexists |].
    destruct (licenses (store d) !! server.license_key data) eqn:Hl; simpl;
      [left; rewrite database_eta; by eexists |].
    destruct (vendors (store d) !! server.vendor_id data) eqn:Hv; simpl;
      [| left; rewrite !database_eta; by eexists].
    unfold add_license. simpl. rewrite Hl. simpl.
    match goal with
    | |- context [AuditService.log_action ?i ?t ?u ?y ?n ?a ?x ?d0] =>
        destruct (log_action_cases i t u y n a x d0)
          as (e & Hu & Ht & Hy & Hact & ->)
    end.
    simpl. right. eexists e, _. split; [reflexivity |]. simpl.
    split; [| done].
    split; [done |]. split; [done |]. split; [by rewrite Hy, Hact |].
    by exists role.
  - unfold api_router.update_license, api_router.role_value. simpl.
    destruct (models.role user) as [role|]; run_route;
      [| left; by eexists].
    rewrite role_check_admin.
    case_bool_decide as Hrole; simpl; [left; by eexists |].
    destruct (licenses (store d) !! key) as [license|] eqn:Hl; simpl;
      [| left; rewrite database_eta; by eexists].
    set (d1 := {| store := store d; audit_logs := audit_logs d |}).
    assert (d1 = d) as Hd1 by apply database_eta.
    destruct (api_router.vendor_id data) as [[vendor_id|]|]; simpl.
    all: try destruct (vendors (store d) !! vendor_id); simpl.
    all: try (left; rewrite ?Hd1; by eexists).
    all: rewrite ?Hd1.
    all: destruct (api_router.set_columns data license) as [license'|];
      run_route; try (left; rewrite ?database_eta; by eexists).
    all: unfold update_license_row; simpl.
    all: match goal with
    | |- context [AuditService.log_action ?i ?t ?u ?y ?n ?a ?x ?d0] =>
        destruct (log_action_cases i t u y n a x d0)
          as (e & Hu & Ht & Hy & Hact & ->)
    end.
    all: simpl; right; eexists e, _; (split; [reflexivity |]); simpl.
    all: split; [| done].
    all: split; [done |]; split; [done |]; split; [by rewrite Hy, Hact |].
    all: by exists role.
  - unfold api_router.delete_license, api_router.role_value. simpl.
    destruct (models.role user) as [role|]; run_route;
      [| left; by eexists].
    rewrite role_check_admin.
    case_bool_decide as Hrole; simpl; [left; by eexists |].
    destruct (licenses (store d) !! key) as [license|] eqn:Hl; simpl;
      [| left; rewrite database_eta; by eexists].
    match goal with
    | |- context [AuditService.log_action ?i ?t ?u ?y ?n ?a ?x ?d0] =>
        destruct (log_action_cases i t u y n a x d0)
          as (e & Hu & Ht & Hy & Hact & ->)
    end.
    simpl. right. eexists e, _. split; [reflexivity |]. simpl.
    split; [| done].
    split; [done |]. split; [done |]. split; [by rewrite Hy, Hact |].
    by exists role.
Qed.

Lemma handle_all_cons (c : Call) (calls : list Call) (d : Database) :
  handle_all (c :: calls) d = handle_all calls (handle c d).2.
Proof. done. Qed.

Lemma handle_keeps_tables (c : Call) (d : Database) :
  role_of c ≠ Some models.ADMIN →
  vendors (store (handle c d).2) = vendors (store d)
  ∧ devices (store (handle c d).2) = devices (store d)
  ∧ licenses (store (handle c d).2) = licenses (store d).
Proof.
  intros Hrole.
  destruct (handle_cases c d)
    as [[e ->] | (entry & d' & -> & Hentry & Hstore & _)]; [done |].
  simpl. rewrite Hstore.
  destruct Hentry as (_ & _ & _ & role & Hr & Hallowed).
  destruct (request c) as [uuid4 utcnow data | assignment_id | | |];
    simpl in *; try (subst role; done).
  - pose proof (create_assignment_store (store d) uuid4 utcnow
      (api_router.license_key data) (api_router.device_id data)
      (api_router.assigned_by data)) as Hs. simpl in Hs.
    destruct Hs as [-> | (l & a & -> & _)]; done.
  - pose proof (delete_assignment_store (store d) assignment_id) as Hs.
    simpl in Hs. by destruct Hs as (? & ? & ? & _).
Qed.

Lemma handle_refuses (c : Call) (d : Database) :
  role_of c ≠ Some models.ADMIN → role_of c ≠ Some models.ENGINEER →
  ∃ e, handle c d = (Some e, d).
Proof.
  intros Hadmin Hengineer.
  destruct (handle_cases c d)
    as [? | (entry & d' & _ & Hentry & _)]; [done |].
  destruct Hentry as (_ & _ & _ & role & Hr & Hallowed).
  destruct (request c); simpl in Hallowed; try destruct Hallowed;
    congruence.
Qed.

(** X22. The roles guard the data: whatever requests users without the
    ADMIN role make to the five routes, the licenses, vendors and devices
    stay as they are; and when the users are no ENGINEER either (AUDITOR,
    or no role), every request raises and the store and the audit log stay
    as they are. *)
Theorem roles_guard_the_data (calls : list Call) (d : Database) :
  (Forall (λ c, role_of c ≠ Some models.ADMIN) calls →
   vendors (store (handle_all calls d)) = vendors (store d)
   ∧ devices (store (handle_all calls d)) = devices (store d)
   ∧ licenses (store (handle_all calls d)) = licenses (store d))
  ∧ (Forall (λ c, role_of c ≠ Some models.ADMIN
                  ∧ role_of c ≠ Some models.ENGINEER) calls →
     handle_all calls d = d
     ∧ Forall (λ c, ∀ d0, is_Some (handle c d0).1) calls).
Proof.
  split.
  - intros Hroles. revert d.
    induction Hroles as [|c calls Hc _ IH]; intros d; [done |].
    rewrite handle_all_cons.
    destruct (IH (handle c d).2) as (-> & -> & ->).
    by apply handle_keeps_tables.
  - intros Hroles. split.
    + revert d.
      induction Hroles as [|c calls [Ha He] _ IH]; intros d; [done |].
      rewrite handle_all_cons.
      destruct (handle_refuses c d Ha He) as [e ->]. apply IH.
    + eapply Forall_impl; [exact Hroles |].
      intros c [Ha He] d0.
      destruct (handle_refuses c d0 Ha He) as [e ->]. by eexists.
Qed.

Lemma handle_audit_logs (c : Call) (d : Database) :
  audit_logs (handle c d).2 = audit_logs d
  ∨ ∃ entry,
      entry_of c entry ∧ audit_logs d !! log_id c = None
      ∧ audit_logs (handle c d).2 = <[log_id c := entry]> (audit_logs d).
Proof.
  destruct (handle_cases c d)
    as [[e ->] | (entry & d' & -> & Hentry & _ & Hlog)]; [by left |].
  simpl. rewrite Hlog.
  destruct (audit_logs d !! log_id c) eqn:Hfresh; [by left |].
  right. by exists entry.
Qed.

(** X23. The audit log only grows, and what the routes add to it is
    attributable: an entry of the log is never changed or removed by a
    request, and every entry that a sequence of requests has added is the
    entry of one of its calls: it carries the id of the user of the call,
    the time of the call, the table and the action of the request, and
    that user has a role the request is open to (ADMIN for the license
    routes, ADMIN or ENGINEER for the assignment routes). *)
Theorem audit_log_is_attributable (calls : list Call) (d : Database) :
  (∀ id e, audit_logs d !! id = Some e →
           audit_logs (handle_all calls d) !! id = Some e)
  ∧ (∀ id e, audit_logs (handle_all calls d) !! id = Some e →
             audit_logs d !! id = Some e
             ∨ ∃ c, c ∈ calls ∧ log_id c = id ∧ entry_of c e).
Proof.
  revert d. induction calls as [|c calls IH]; intros d.
  { split; [done | by left]. }
  rewrite handle_all_cons.
  destruct (IH (handle c d).2) as [Hkeep Hnew].
  destruct (handle_audit_logs c d)
    as [Hsame | (entry & Hentry & Hfresh & Hlog)].
  - rewrite Hsame in Hkeep, Hnew. split; [done |].
    intros id e Hin.
    destruct (Hnew id e Hin) as [? | (c' & Hc' & ? & ?)]; [by left |].
    right. exists c'. by rewrite elem_of_cons; auto.
  - rewrite Hlog in Hkeep, Hnew. split.
    + intros id e Hin. apply Hkeep.
      rewrite lookup_insert_ne; [done |]. congruence.
    + intros id e Hin.
      destruct (Hnew id e Hin) as [Hold | (c' & Hc' & ? & ?)].
      * destruct (decide (log_id c = id)) as [<- | Hne].
        -- rewrite lookup_insert_eq in Hold. injection Hold as <-.
           right. exists c. by rewrite elem_of_cons; auto.
        -- rewrite lookup_insert_ne in Hold by done. by left.
      * right. exists c'. by rewrite elem_of_cons; auto.
Qed.

(** X24. A call is all or nothing. When the route raises, the store and
    the audit log are as before. When it returns, the user has a role the
    request is open to, the store is the one the request leaves, and the
    call is logged under its log id when that id is free; when the id is
    taken the store has changed all the same and the log has not. *)
Theorem call_is_all_or_nothing (c : Call) (d : Database) :
  match (handle c d).1 with
  | Some _ => (handle c d).2 = d
  | None =>
      (∃ role, role_of c = Some role ∧ allowed (request c) role)
      ∧ store (handle c d).2 = stored (request c) (store d)
      ∧ (audit_logs d !! log_id c = None →
         ∃ entry, entry_of c entry
           ∧ audit_logs (handle c d).2
             = <[log_id c := entry]> (audit_logs d))
      ∧ (is_Some (audit_logs d !! log_id c) →
         audit_logs (handle c d).2 = audit_logs d)
  end.
Proof.
  destruct (handle_cases c d)
    as [[e ->] | (entry & d' & -> & Hentry & Hstore & Hlog)]; [done |].
  simpl. split; [by destruct Hentry as (_ & _ & _ & ?) |].
  split; [done |]. rewrite Hlog. split.
  - intros ->. by exists entry.
  - by intros [e ->].
Qed.

Lemma roles_guard_the_data_witness :
  handle_all [Sample.call (Some models.AUDITOR) "LOG-1" Sample.post_assignment;
              Sample.call None "LOG-2" (PostLicense (Sample.request 5))]
    Sample.database
  = Sample.database.
Proof.
  apply (roles_guard_the_data
    [Sample.call (Some models.AUDITOR) "LOG-1" Sample.post_assignment;
     Sample.call None "LOG-2" (PostLicense (Sample.request 5))]
    Sample.database).
  repeat constructor; done.
Defined.

Lemma audit_log_is_attributable_witness :
  ∃ e,
    audit_logs
      (handle_all
         [Sample.call (Some models.ENGINEER) "LOG-1" Sample.post_assignment]
         Sample.database) !! "LOG-1" = Some e
    ∧ models.user_id e = "U1" ∧ models.action e = "ASSIGN".
Proof.
  eexists. split; [by vm_compute |].
  destruct (audit_log_is_attributable
    [Sample.call (Some models.ENGINEER) "LOG-1" Sample.post_assignment]
    Sample.database) as [_ Hnew].
  destruct (Hnew "LOG-1" _ ltac:(by vm_compute)) as [Hold | Hcall].
  - by vm_compute in Hold.
  - by vm_compute.
Defined.

Lemma call_is_all_or_nothing_witness :
  assignments
    (store (handle (Sample.call (Some models.ENGINEER) "LOG-1"
                      Sample.post_assignment) Sample.database).2)
  !! "ASSIGN-002"
  = Some {| models.license_key := "LIC-1";
            models.device_id := "DEV-B";
            models.assigned_by := "U2";
            models.assigned_at := 0 |}.
Proof.
  pose proof (call_is_all_or_nothing
    (Sample.call (Some models.ENGINEER) "LOG-1" Sample.post_assignment)
    Sample.database) as H.
  assert ((handle (Sample.call (Some models.ENGINEER) "LOG-1"
                     Sample.post_assignment) Sample.database).1 = None)
    as Hret by (by vm_compute).
  rewrite Hret in H. destruct H as (_ & -> & _). by vm_compute.
Defined.



(** X26. The assignment routes add the role check and the audit entry to
    the service and nothing else: for an ADMIN or an ENGINEER the route
    returns what [AssignmentService] returns and raises what it raises, on
    the same store, so that no refusal of the service is lost or added.
    The row is stored with the [assigned_by] of the request body, which
    need not be the user who makes the request. *)
Theorem assignment_routes_follow_the_service
    (uuid4 : string) (utcnow : Z) (log_id : string) (log_time : Z)
    (assignment_data : api_router.AssignmentCreate) (assignment_id : string)
    (current_user : string * models.User) (d : Database) :
  models.role current_user.2 = Some models.ADMIN
  ∨ models.role current_user.2 = Some models.ENGINEER →
  (api_router.create_assignment uuid4 utcnow log_id log_time
     assignment_data current_user d).1
  = (AssignmentService.create_assignment uuid4 utcnow
       (api_router.license_key assignment_data)
       (api_router.device_id assignment_data)
       (api_router.assigned_by assignment_data) (store d)).1
  ∧ (api_router.delete_assignment log_id log_time assignment_id
       current_user d).1
    = (AssignmentService.delete_assignment assignment_id (store d)).1
  ∧ ∀ id a,
      (api_router.create_assignment uuid4 utcnow log_id log_time
         assignment_data current_user d).1 = Return (id, a) →
      models.assigned_by a = api_router.assigned_by assignment_data.
Proof.
  intros Hrole. destruct current_user as [user_id user]. simpl in Hrole.
  assert (∃ role, models.role user = Some role
                  ∧ role ≠ models.AUDITOR) as (role & Hr & Hne).
  { destruct Hrole as [-> | ->]; by eexists. }
  assert ((api_router.create_assignment uuid4 utcnow log_id log_time
             assignment_data (user_id, user) d).1
          = (AssignmentService.create_assignment uuid4 utcnow
               (api_router.license_key assignment_data)
               (api_router.device_id assignment_data)
               (api_router.assigned_by assignment_data) (store d)).1)
    as Hcreate.
  { unfold api_router.create_assignment, api_router.role_value. simpl.
    rewrite Hr. run_route. rewrite role_check_assign.
    rewrite bool_decide_eq_false_2 by done.
    destruct (AssignmentService.create_assignment _ _ _ _ _ (store d))
      as [[[id a]|e] s']; simpl; [| done].
    match goal with
    | |- context [AuditService.log_action ?i ?t ?u ?y ?n ?a ?x ?d0] =>
        destruct (log_action_cases i t u y n a x d0)
          as (e & _ & _ & _ & _ & ->)
    end.
    done. }
  split; [exact Hcreate |]. split.
  - unfold api_router.delete_assignment, api_router.role_value. simpl.
    rewrite Hr. run_route. rewrite role_check_assign.
    rewrite bool_decide_eq_false_2 by done.
    destruct (AssignmentService.delete_assignment _ (store d))
      as [[result|e] s']; simpl; [| done].
    destruct (assignments (store d) !! assignment_id) as [a|]; [| done].
    match goal with
    | |- context [AuditService.log_action ?i ?t ?u ?y ?n ?a ?x ?d0] =>
        destruct (log_action_cases i t u y n a x d0)
          as (e & _ & _ & _ & _ & ->)
    end.
    done.
  - intros id a Hret. rewrite Hcreate in Hret.
    destruct (AssignmentService.create_assignment _ _ _ _ _ (store d))
      as [result s'] eqn:Hrun.
    simpl in Hret. subst result.
    by apply create_assignment_returns in Hrun as (_ & -> & _).
Qed.

Lemma assignment_routes_follow_the_service_witness :
  ∃ a,
    (api_router.create_assignment "ASSIGN-002" 0 "LOG-1" 0
       {| api_router.license_key := "LIC-1";
          api_router.device_id := "DEV-B";
          api_router.assigned_by := "U2" |}
       (Sample.user (Some models.ENGINEER)) Sample.database).1
    = Return ("ASSIGN-002", a)
    ∧ models.assigned_by a = "U2".
Proof.
  eexists. split; [by vm_compute |].
  eapply (assignment_routes_follow_the_service "ASSIGN-002" 0 "LOG-1" 0
            {| api_router.license_key := "LIC-1";
               api_router.device_id := "DEV-B";
               api_router.assigned_by := "U2" |}
            "" (Sample.user (Some models.ENGINEER)) Sample.database).
  - by right.
  - by vm_compute.
Defined.

Lemma set_columns_dumped (license_data : api_router.LicenseUpdate)
    (license license' : models.License) :
  api_router.set_columns license_data license = Some license' →
  api_router.notes license_data ≠ Some None →
  license' = LicenseUpdate.apply (dumped license_data) license.
Proof.
  unfold api_router.set_columns, LicenseUpdate.apply, dumped,
    api_router.set_column.
  destruct license_data as [n v f t y m o]. simpl.
  intros H Hnotes.
  destruct n as [[?|]|], v as [[?|]|], f as [[?|]|], t as [[?|]|],
    y as [[?|]|], m as [[?|]|]; simpl in H; try done;
    injection H as <-; f_equal; by destruct o as [[?|]|].
Qed.

Lemma set_columns_no_null (license_data : api_router.LicenseUpdate)
    (license : models.License) :
  no_null license_data →
  api_router.set_columns license_data license
  = Some (LicenseUpdate.apply (dumped license_data) license).
Proof.
  unfold no_null, api_router.set_columns, LicenseUpdate.apply, dumped,
    api_router.set_column.
  destruct license_data as [n v f t y m o]. simpl.
  intros (Hn & Hv & Hf & Ht & Hy & Hm & Ho).
  destruct n as [[?|]|], v as [[?|]|], f as [[?|]|], t as [[?|]|],
    y as [[?|]|], m as [[?|]|]; try done; simpl;
    f_equal; f_equal; by destruct o as [[?|]|].
Qed.

(** X27. The route that updates a license and
    [LicenseService.update_license] on the same request. When the route
    returns for an ADMIN and the request does not set [notes] to null, the
    service returns the same license and leaves the same store. When the
    service returns, no field of the request is null and [vendor_id] is
    not set to the empty text, the route returns the same license and
    leaves the same store. *)
Theorem update_license_route_and_service
    (log_id : string) (log_time : Z) (license_key : string)
    (license_data : api_router.LicenseUpdate)
    (current_user : string * models.User) (d : Database) :
  models.role current_user.2 = Some models.ADMIN →
  (∀ license,
     (api_router.update_license log_id log_time license_key license_data
        current_user d).1 = Return license →
     api_router.notes license_data ≠ Some None →
     LicenseService.update_license license_key (dumped license_data)
       (store d)
     = (Return license,
        store (api_router.update_license log_id log_time license_key
                 license_data current_user d).2))
  ∧ (∀ license s',
       LicenseService.update_license license_key (dumped license_data)
         (store d) = (Return license, s') →
       no_null license_data →
       api_router.vendor_id license_data ≠ Some (Some "") →
       (api_router.update_license log_id log_time license_key license_data
          current_user d).1 = Return license
       ∧ store (api_router.update_license log_id log_time license_key
                  license_data current_user d).2 = s').
Proof.
  intros Hrole. destruct current_user as [user_id user]. simpl in Hrole.
  unfold api_router.update_license, api_router.role_value,
    LicenseService.update_license, LicenseService.get_license_by_key.
  simpl. rewrite Hrole. run_route.
  unfold bind, query, ret, raise, update_license_row. simpl.
  destruct (licenses (store d) !! license_key) as [license0|] eqn:Hl;
    simpl; [| done].
  split.
  - intros license Hret Hnotes.
    destruct (api_router.vendor_id license_data) as [[vendor_id|]|] eqn:Hv;
      simpl in *.
    + destruct (vendors (store d) !! vendor_id) eqn:Hvendor; simpl in *;
        [| done].
      destruct (api_router.set_columns license_data license0)
        as [license'|] eqn:Hset; simpl in *; [| done].
      pose proof (set_columns_dumped _ _ _ Hset Hnotes) as ->.
      revert Hret.
      match goal with
      | |- context [AuditService.log_action ?i ?t ?u ?y ?n ?a ?x ?d0] =>
          destruct (log_action_cases i t u y n a x d0)
            as (e & _ & _ & _ & _ & ->)
      end.
      simpl. intros [= <-].
      case_bool_decide; simpl; [by rewrite Hvendor |]. done.
    + done.
    + destruct (api_router.set_columns license_data license0)
        as [license'|] eqn:Hset; simpl in *; [| done].
      pose proof (set_columns_dumped _ _ _ Hset Hnotes) as ->.
      revert Hret.
      match goal with
      | |- context [AuditService.log_action ?i ?t ?u ?y ?n ?a ?x ?d0] =>
          destruct (log_action_cases i t u y n a x d0)
            as (e & _ & _ & _ & _ & ->)
      end.
      simpl. by intros [= <-].
  - intros license s' Hret Hnull Hempty.
    rewrite (set_columns_no_null _ license0 Hnull).
    pose proof Hnull as (_ & Hv & _).
    destruct (api_router.vendor_id license_data) as [[vendor_id|]|] eqn:Hvid;
      simpl in *; [| done |].
    + rewrite bool_decide_eq_true_2 in Hret by congruence.
      destruct (vendors (store d) !! vendor_id) eqn:Hvendor; simpl in *;
        [| done].
      injection Hret as <- <-.
      match goal with
      | |- context [AuditService.log_action ?i ?t ?u ?y ?n ?a ?x ?d0] =>
          destruct (log_action_cases i t u y n a x d0)
            as (e & _ & _ & _ & _ & ->)
      end.
      done.
    + injection Hret as <- <-.
      match goal with
      | |- context [AuditService.log_action ?i ?t ?u ?y ?n ?a ?x ?d0] =>
          destruct (log_action_cases i t u y n a x d0)
            as (e & _ & _ & _ & _ & ->)
      end.
      done.
Qed.

Lemma update_license_route_and_service_witness :
  ∃ license,
    LicenseService.update_license "LIC-1" (dumped Sample.shrink) Sample.store
    = (Return license,
       store (api_router.update_license "LOG-1" 0 "LIC-1" Sample.shrink
                (Sample.user (Some models.ADMIN)) Sample.database).2)
    ∧ models.max_usage license = 1.
Proof.
  eexists. split.
  - apply (update_license_route_and_service "LOG-1" 0 "LIC-1" Sample.shrink
             (Sample.user (Some models.ADMIN)) Sample.database);
      [reflexivity | by vm_compute | done].
  - reflexivity.
Defined.
